(** * PySAR network modification: model and verified properties

    A shallow embedding of [pysar/utils/datetime.py] (the date helpers
    [yymmdd2yyyymmdd], [yyyymmdd], [yymmdd]) and of
    [pysar/modify_network.py] (index-list parsing, reset, the drop rules of
    [get_date12_to_drop], and [main]).

    Python values are modelled as follows.
    - [str] is [string]; the model covers ASCII text, which is what dates,
      [date12] identifiers and index tokens are made of.
    - [float] quantities (coherence, baselines, thresholds) are rationals
      [Q]: the code only takes absolute values and compares them, and both
      operations are exact on finite floats.
    - [set] is stdpp's [gset]; [sorted(list(set(..)))] is a merge sort of
      the elements of the set.
    - exceptions are an explicit [result] type with a bind. *)

From Stdlib Require Import Ascii String QArith Qabs.
From stdpp Require Import base decidable option list sorting gmap strings.

Local Open Scope Z_scope.

(** ** Python builtins used by the two modules *)
Module Py.

Inductive exn : Type :=
  | NameError (name : string)
  | IndexError
  | ValueError (literal : string)
  | SystemExit (code : Z).

Inductive result (A : Type) : Type :=
  | Ok (a : A)
  | Raise (e : exn).
Arguments Ok {A} a.
Arguments Raise {A} e.

#[export] Instance result_ret : MRet result := @Ok.
#[export] Instance result_bind : MBind result :=
  λ A B f m, match m with Ok a => f a | Raise e => Raise e end.
#[export] Instance result_fmap : FMap result :=
  λ A B f m, match m with Ok a => Ok (f a) | Raise e => Raise e end.

Definition is_Ok {A} (m : result A) : Prop := ∃ a, m = Ok a.

(** [str.split(sep)] for a one-character separator. *)
Fixpoint split (sep : ascii) (s : string) : list string :=
  match s with
  | "" => [""]
  | String c s' =>
      if Ascii.eqb c sep then "" :: split sep s'
      else match split sep s' with
           | [] => [String c ""]
           | w :: ws => String c w :: ws
           end
  end.

Definition is_digit (c : ascii) : bool :=
  (48 <=? nat_of_ascii c)%nat && (nat_of_ascii c <=? 57)%nat.

Definition digit_value (c : ascii) : Z := Z.of_nat (nat_of_ascii c) - 48.

(** ASCII characters for which [str.isspace] holds. *)
Definition is_space (c : ascii) : bool :=
  let n := nat_of_ascii c in
  ((9 <=? n)%nat && (n <=? 13)%nat) || ((28 <=? n)%nat && (n <=? 32)%nat).

Fixpoint lstrip (s : string) : string :=
  match s with
  | String c s' => if is_space c then lstrip s' else s
  | "" => ""
  end.

Definition strip (s : string) : string :=
  String.rev (lstrip (String.rev (lstrip s))).

(** Decimal digits, where single underscores may separate digits. *)
Fixpoint digits (acc : Z) (after_digit : bool) (s : string) : option Z :=
  match s with
  | "" => if after_digit then Some acc else None
  | String c s' =>
      if is_digit c then digits (10 * acc + digit_value c) true s'
      else if Ascii.eqb c "_" then
        (if after_digit then digits acc false s' else None)
      else None
  end.

(** [int(s)] in base ten: surrounding whitespace is ignored, one sign is
    allowed, anything else raises [ValueError]. *)
Definition int (s : string) : result Z :=
  let body := strip s in
  let parsed :=
    match body with
    | String "-" ds => Z.opp <$> digits 0 false ds
    | String "+" ds => digits 0 false ds
    | _ => digits 0 false body
    end in
  match parsed with
  | Some z => Ok z
  | None => Raise (ValueError s)
  end.

(** [l[i]] on a list, with Python's negative indices. *)
Definition getitem {A} (l : list A) (i : Z) : result A :=
  let n := Z.of_nat (length l) in
  let j := if i <? 0 then i + n else i in
  if (0 <=? j) && (j <? n)
  then match l !! Z.to_nat j with Some x => Ok x | None => Raise IndexError end
  else Raise IndexError.

(** [any(p(x) for x in l)]: stops at the first true, an exception raised
    by [p] before that escapes. *)
Fixpoint any {A} (p : A → result bool) (l : list A) : result bool :=
  match l with
  | [] => Ok false
  | x :: l' => b ← p x; if b : bool then Ok true else any p l'
  end.

(** [[x for x in l if p(x)]] where [p] may raise. *)
Fixpoint filter_comp {A} (p : A → result bool) (l : list A) : result (list A) :=
  match l with
  | [] => Ok []
  | x :: l' =>
      b ← p x; r ← filter_comp p l'; Ok (if b : bool then x :: r else r)
  end.

(** [[f(x) for x in l]] where [f] may raise. *)
Fixpoint map_comp {A B} (f : A → result B) (l : list A) : result (list B) :=
  match l with
  | [] => Ok []
  | x :: l' => y ← f x; r ← map_comp f l'; Ok (y :: r)
  end.

(** [numpy.array(l)[mask]] with a boolean [mask] as long as [l]: the
    elements at the positions where the mask is true, in order. *)
Definition boolean_index {A} (l : list A) (mask : list bool) : list A :=
  fst <$> filter (λ xb, xb.2 = true) (zip l mask).

(** [sorted(list(set(l)))] for strings and for integers. *)
Definition sorted_set_str (X : gset string) : list string :=
  merge_sort String.le (elements X).

Definition sorted_set_int (X : gset Z) : list Z :=
  merge_sort Z.le (elements X).

(** [sorted(l)] on integers. *)
Definition sorted_int (l : list Z) : list Z := merge_sort Z.le l.

(** [list(range(a, b))]. *)
Definition range (a b : Z) : list Z := seqZ a (b - a).

End Py.
Export Py.

(** ** pysar/utils/datetime.py *)
Module ptime.

(** The argument of [yyyymmdd] and [yymmdd] is dynamically typed: the code
    tests for [str], then for [list], and returns [None] otherwise. *)
Inductive dates_arg : Type :=
  | DStr (s : string)
  | DList (l : list string)
  | DOther.

Definition yymmdd2yyyymmdd (date : string) : string :=
  match date with
  | String "9" _ => "19" +:+ date
  | _ => "20" +:+ date
  end.

Definition yyyymmdd1 (date : string) : string :=
  if (String.length date =? 6)%nat then yymmdd2yyyymmdd date else date.

Definition yyyymmdd (dates : dates_arg) : option dates_arg :=
  match dates with
  | DStr s => Some (DStr (yyyymmdd1 s))
  | DList l => Some (DList (yyyymmdd1 <$> l))
  | DOther => None
  end.

Definition yymmdd1 (date : string) : string :=
  if (String.length date =? 8)%nat then String.substring 2 6 date else date.

Definition yymmdd (dates : dates_arg) : option dates_arg :=
  match dates with
  | DStr s => Some (DStr (yymmdd1 s))
  | DList l => Some (DList (yymmdd1 <$> l))
  | DOther => None
  end.

(** A valid six-digit date: six characters, all decimal digits. *)
Definition is_yymmdd (d : string) : bool :=
  (String.length d =? 6)%nat && forallb is_digit (list_ascii_of_string d).

(** The list branch of [yyyymmdd]. *)
Definition yyyymmdd_list (dates : list string) : list string :=
  yyyymmdd1 <$> dates.

(** [date_index]: the loop [for ni in range(len(dateList))] stores
    [dateIndex[dateList[ni]] = ni]. *)
Definition date_index (dateList : list string) : gmap string nat :=
  foldl (λ dateIndex p, <[p.2 := p.1]> dateIndex) ∅ (imap pair dateList).

Section Calendar.

(** The [datetime] that the code builds from [time.strptime] with the
    format of four-digit year, month and day, as the day number of the
    date read: the difference of two such numbers is [(d2 - d1).days].
    When the string is not a date in that format the parser raises.  The
    standard library's parser and calendar are a parameter. *)
Variable strptime_ordinal : string → result Z.

(** [date_list2tbase] on a list of dates: the baselines in days with
    respect to the first date, and the dictionary from date to baseline. *)
Definition date_list2tbase (dateList : list string)
  : result (list Z * gmap string Z) :=
  let dateList := yyyymmdd_list dateList in
  d0 ← Py.getitem dateList 0;
  d1 ← strptime_ordinal d0;
  tbase ← map_comp (λ d, d2 ← strptime_ordinal d; Ok (d2 - d1)) dateList;
  let dateDict :=
    foldl (λ dateDict p, <[p.1 := p.2]> dateDict) ∅ (zip dateList tbase) in
  Ok (tbase, dateDict).

(** The baseline of a date that reads: its day number less [d1], the day
    number of the first date. *)
Definition days_since (d1 : Z) (d : string) : Z :=
  match strptime_ordinal d with Ok d2 => d2 - d1 | Raise _ => 0 end.

End Calendar.

End ptime.

(** ** pysar/modify_network.py *)
Module modify_network.

(** *** The interferogram stack and the parsed options *)

(** Modelled from the spec: the class [ifgramStack] of [pysar.objects],
    which this module opens to read a stack, is not in the sources at hand.
    The spec's data model gives one record per interferogram, in storage
    order.  [dropIfgram] is the stored flag as the code uses it: [True]
    marks a pair that is kept, [False] one that is dropped, so the spec's
    [dropped] flag is its negation.  [coherence] is the value that
    [ut.spatial_average(file, datasetName='coherence', ...)] yields for the
    pair. *)
Record InterferogramRecord : Type := {
  date12 : string;
  tbase : Q;
  pbase : Q;
  coherence : Q;
  dropIfgram : bool
}.

Abbreviation Stack := (list InterferogramRecord).

Definition set_dropIfgram (b : bool) (r : InterferogramRecord) : InterferogramRecord :=
  {| date12 := date12 r; tbase := tbase r; pbase := pbase r;
     coherence := coherence r; dropIfgram := b |}.

(** Modelled from the spec: the attributes and methods of [ifgramStack]
    that the module reads. *)
Definition date12List (obj : Stack) : list string := date12 <$> obj.
Definition tbaseIfgram (obj : Stack) : list Q := tbase <$> obj.
Definition pbaseIfgram (obj : Stack) : list Q := pbase <$> obj.
Definition cohList (obj : Stack) : list Q := coherence <$> obj.
Definition numIfgramOrig (obj : Stack) : Z := Z.of_nat (length obj).

(** Modelled from the spec: [obj.get_date12_list(dropIfgram=True)], the
    pairs whose flag is [True]. *)
Definition get_date12_list (obj : Stack) : list string :=
  date12 <$> filter (λ r, dropIfgram r = true) obj.

(** Modelled from the spec: [update_drop_ifgram(date12List_to_drop)]
    rewrites the flag array so that exactly the listed pairs are dropped. *)
Definition update_drop_ifgram (obj : Stack) (date12List_to_drop : list string) : Stack :=
  (λ r, set_dropIfgram (bool_decide (date12 r ∉ date12List_to_drop)) r) <$> obj.

(** The [argparse] namespace after [cmdLineParse], restricted to the
    options that decide which pairs are dropped.  Options that only feed the
    coherence average ([maskFile], the area of interest, [lookupFile]) and
    the plotting flags are left out. *)
Record Inps : Type := {
  file : string;
  template_file : option string;
  reset : bool;
  tempBaseMax : option Q;
  perpBaseMax : option Q;
  referenceFile : option string;
  excludeIfgIndex : list Z;
  excludeDate : option (list string);
  startDate : option string;
  endDate : option string;
  coherenceBased : bool;
  keepMinSpanTree : bool;
  minCoherence : Q;
  manual : bool
}.

Definition set_reset (b : bool) (inps : Inps) : Inps :=
  {| file := file inps; template_file := template_file inps; reset := b;
     tempBaseMax := tempBaseMax inps; perpBaseMax := perpBaseMax inps;
     referenceFile := referenceFile inps;
     excludeIfgIndex := excludeIfgIndex inps; excludeDate := excludeDate inps;
     startDate := startDate inps; endDate := endDate inps;
     coherenceBased := coherenceBased inps;
     keepMinSpanTree := keepMinSpanTree inps;
     minCoherence := minCoherence inps; manual := manual inps |}.

(** Python truth values: [if_str o] is the string when [if o:] succeeds,
    that is when it is neither [None] nor empty; a float is true unless it
    is zero, a list unless it is empty. *)
Definition if_str (o : option string) : option string :=
  match o with
  | Some s => if String.eqb s "" then None else Some s
  | None => None
  end.
Definition if_float (o : option Q) : option Q :=
  match o with
  | Some q => if Qeq_bool q 0 then None else Some q
  | None => None
  end.
Definition if_list {A} (o : option (list A)) : option (list A) :=
  match o with
  | Some [] => None
  | Some l => Some l
  | None => None
  end.
Definition truthy {A} (o : option A) : bool :=
  match o with Some _ => true | None => false end.

(** *** read_input_index_list *)

(** One turn of the loop over the tokens: the integers appended to
    [idxListOut] and the lines printed. *)
Definition read_index_token (idx : string) : result (list Z * list string) :=
  c ← sorted_int <$> map_comp Py.int (Py.split ":" idx);
  match c with
  | [c0; c1] => Ok (Py.range c0 (c1 + 1), [])
  | [c0] => Ok ([c0], [])
  | _ => Ok ([], ["Unrecoganized input: " +:+ idx])
  end.

Fixpoint read_index_tokens (idxList : list string) : result (list Z * list string) :=
  match idxList with
  | [] => Ok ([], [])
  | idx :: rest =>
      '(out, msgs) ← read_index_token idx;
      '(out', msgs') ← read_index_tokens rest;
      Ok (out ++ out', msgs ++ msgs')
  end.

(** [stackFile] is the stack the caller names, when it names one; the
    result pairs the index list with the lines printed. *)
Definition read_input_index_list (idxList : list string) (stackFile : option Stack)
  : result (list Z * list string) :=
  '(idxListOut, msgs) ← read_index_tokens idxList;
  let idxListOut := sorted_set_int (list_to_set idxListOut) in
  let idxListOut :=
    match stackFile with
    | Some obj => filter (λ i, i < numIfgramOrig obj) idxListOut
    | None => idxListOut
    end in
  Ok (idxListOut, msgs).

(** Every part of every token reads as an integer. *)
Definition parts_are_integers (idxList : list string) : bool :=
  forallb
    (λ idx, forallb (λ part, match Py.int part with Ok _ => true | Raise _ => false end)
                    (Py.split ":" idx))
    idxList.

(** What a token stands for: a bare integer stands for itself, [a:b] for
    every integer between its two ends, whichever comes first.  The parts
    of the token are read with [int]. *)
Definition index_token_denotes (idx : string) (n : Z) : Prop :=
  (∃ a, map_comp Py.int (Py.split ":" idx) = Ok [a] ∧ n = a)
  ∨ (∃ a b, map_comp Py.int (Py.split ":" idx) = Ok [a; b]
            ∧ Z.min a b ≤ n ≤ Z.max a b).

(** *** reset_network *)

Definition all_dropIfgram (obj : Stack) : bool := forallb dropIfgram obj.

(** The function reads the stack and may rewrite its flags: it maps the
    stored stack to the stored stack afterwards, the lines printed and the
    outcome of the call.  The name [inps] on line 200 is neither a parameter
    nor a local nor a module-level name (in [main] it is a local), so
    evaluating the argument of [ut.touch] raises [NameError]; the flags
    have been written by then. *)
Definition reset_network (stackFile : string) (obj : Stack)
  : Stack * list string * result string :=
  let banner :=
    "reset dataset 'dropIfgram' to True for all interferograms for file: "
      +:+ stackFile in
  if all_dropIfgram obj then
    (obj, [banner; "All dropIfgram are already True, no need to reset."],
     Ok stackFile)
  else
    (set_dropIfgram true <$> obj, [banner], Raise (NameError "inps")).

(** *** manual_select_pairs_to_remove *)

(** What the user does in the figure: the dates clicked, as resolved by
    [nearest_neighbor], and the answer to the closing question. *)
Record Interaction : Type := {
  clicks : list string;
  proceed : bool
}.

Definition sorted_pair (a b : string) : string * string :=
  if String.leb a b then (a, b) else (b, a).

(** The click handler, run on each click in turn: [date_click] is kept
    with its last element first. *)
Fixpoint onclick_all (date12ListAll : list string) (date_click : list string)
    (date12_click : list string) (events : list string) : list string :=
  match events with
  | [] => date12_click
  | d :: rest =>
      let date_click' := d :: date_click in
      let date12_click' :=
        match date_click' with
        | last :: prev :: _ =>
            if Nat.even (length date_click') && negb (String.eqb prev last) then
              let '(mDate, sDate) := sorted_pair prev last in
              let d12 := mDate +:+ "_" +:+ sDate in
              if bool_decide (d12 ∈ date12ListAll)
              then date12_click ++ [d12] else date12_click
            else date12_click
        | _ => date12_click
        end in
      onclick_all date12ListAll date_click' date12_click' rest
  end.

Definition manual_select_pairs_to_remove (obj : Stack) (ui : Interaction)
  : option (list string) :=
  let date12_click := onclick_all (date12List obj) [] [] (clicks ui) in
  if negb (proceed ui) then None else Some date12_click.

(** *** get_date12_to_drop *)

(** Every date of every pair of the stack reads as an integer. *)
Definition dates_are_integers (obj : Stack) : bool :=
  forallb
    (λ i, forallb (λ j, match Py.int j with Ok _ => true | Raise _ => false end)
                  (Py.split "_" i))
    (date12 <$> obj).

Definition no_option_found (inps : Inps) : bool :=
  negb (truthy (if_str (referenceFile inps)))
  && negb (truthy (if_float (tempBaseMax inps)))
  && negb (truthy (if_float (perpBaseMax inps)))
  && negb (truthy (if_list (Some (excludeIfgIndex inps))))
  && negb (truthy (if_list (excludeDate inps)))
  && negb (coherenceBased inps)
  && negb (truthy (if_str (startDate inps)))
  && negb (truthy (if_str (endDate inps)))
  && negb (reset inps) && negb (manual inps).

Section Collaborators.

(** [ifgramStack(referenceFile).get_date12_list(dropIfgram=True)]: the keep
    list read from a reference file. *)
Variable reference_date12_list : string → list string.

(** [pnet.threshold_coherence_based_mst(date12ListAll, cohList)]: the pairs
    of a minimum spanning tree, from [pysar.utils.network]. *)
Variable threshold_coherence_based_mst : list string → list Q → list string.

(** [sorted(list(set(a) - set(b)))]. *)
Definition sorted_difference (a b : list string) : list string :=
  sorted_set_str (list_to_set a ∖ list_to_set b).

(** 1. pairs that are not in the reference file. *)
Definition tempList_reference (referenceFile : string) (obj : Stack) : list string :=
  let date12_to_keep := reference_date12_list referenceFile in
  sorted_difference (date12List obj) date12_to_keep.

(** 2.1 [np.array(date12ListAll)[np.array(cohList) >= minCoherence]]. *)
Definition coh_date12_list (minCoherence : Q) (obj : Stack) : list string :=
  Py.boolean_index (date12List obj) (Qle_bool minCoherence <$> cohList obj).

Definition mst_date12_list (keepMinSpanTree : bool) (obj : Stack) : list string :=
  if keepMinSpanTree
  then threshold_coherence_based_mst (date12List obj) (cohList obj)
  else [].

Definition tempList_coherence (inps : Inps) (obj : Stack) : list string :=
  sorted_set_str
    (list_to_set (date12List obj)
       ∖ list_to_set (coh_date12_list (minCoherence inps) obj)
       ∖ list_to_set (mst_date12_list (keepMinSpanTree inps) obj)).

(** 2.2 and 2.3: [np.abs(baseline) > max] used as a mask on the pairs. *)
Definition exceeds (max x : Q) : bool := negb (Qle_bool (Qabs x) max).

Definition tempList_tempBase (max : Q) (obj : Stack) : list string :=
  let tempIndex := exceeds max <$> tbaseIfgram obj in
  Py.boolean_index (date12List obj) tempIndex.

Definition tempList_perpBase (max : Q) (obj : Stack) : list string :=
  let tempIndex := exceeds max <$> pbaseIfgram obj in
  Py.boolean_index (date12List obj) tempIndex.

(** 2.4 *)
Definition tempList_excludeIfgIndex (idx : list Z) (obj : Stack) : result (list string) :=
  map_comp (Py.getitem (date12List obj)) idx.

(** 2.5 [any(j in excludeDate for j in i.split('_'))]. *)
Definition has_excluded_date (excl : list string) (i : string) : bool :=
  existsb (λ j, bool_decide (j ∈ excl)) (Py.split "_" i).

Definition tempList_excludeDate (excl : list string) (obj : Stack) : list string :=
  filter (λ i, has_excluded_date excl i = true) (date12List obj).

(** 2.6 and 2.7 *)
Definition tempList_startDate (startDate : string) (obj : Stack) : result (list string) :=
  minDate ← Py.int startDate;
  filter_comp
    (λ i, Py.any (λ j, v ← Py.int j; Ok (v <? minDate)) (Py.split "_" i))
    (date12List obj).

Definition tempList_endDate (endDate : string) (obj : Stack) : result (list string) :=
  maxDate ← Py.int endDate;
  filter_comp
    (λ i, Py.any (λ j, v ← Py.int j; Ok (maxDate <? v)) (Py.split "_" i))
    (date12List obj).

(** The numbered blocks of the function.  Each one reads its option and,
    when the option is set, appends the rule's list to [date12_to_drop].
    The progress lines printed on the way are left out: their arguments are
    lengths and lists already computed, except on line 348. *)

(** 1. *)
Definition rule_reference (inps : Inps) (obj : Stack) (date12_to_drop : list string)
  : list string :=
  match if_str (referenceFile inps) with
  | Some f => date12_to_drop ++ tempList_reference f obj
  | None => date12_to_drop
  end.

(** 2.1 *)
Definition rule_coherence (inps : Inps) (obj : Stack) (date12_to_drop : list string)
  : list string :=
  if coherenceBased inps
  then date12_to_drop ++ tempList_coherence inps obj
  else date12_to_drop.

(** 2.2 *)
Definition rule_tempBase (inps : Inps) (obj : Stack) (date12_to_drop : list string)
  : list string :=
  match if_float (tempBaseMax inps) with
  | Some m => date12_to_drop ++ tempList_tempBase m obj
  | None => date12_to_drop
  end.

(** 2.3 *)
Definition rule_perpBase (inps : Inps) (obj : Stack) (date12_to_drop : list string)
  : list string :=
  match if_float (perpBaseMax inps) with
  | Some m => date12_to_drop ++ tempList_perpBase m obj
  | None => date12_to_drop
  end.

(** 2.4 *)
Definition rule_excludeIfgIndex (inps : Inps) (obj : Stack)
    (date12_to_drop : list string) : result (list string) :=
  match if_list (Some (excludeIfgIndex inps)) with
  | Some idx => tempList ← tempList_excludeIfgIndex idx obj;
                Ok (date12_to_drop ++ tempList)
  | None => Ok date12_to_drop
  end.

(** 2.5: the second [print] of the block evaluates [len(templist)]; no
    variable of that name exists in the function or the module (the list is
    [tempList]), so the block raises [NameError] once the rule's list has
    been appended. *)
Definition rule_excludeDate (inps : Inps) (obj : Stack)
    (date12_to_drop : list string) : result (list string) :=
  match if_list (excludeDate inps) with
  | Some excl =>
      let tempList := tempList_excludeDate excl obj in
      let date12_to_drop := date12_to_drop ++ tempList in
      Raise (NameError "templist")
  | None => Ok date12_to_drop
  end.

(** 2.6 *)
Definition rule_startDate (inps : Inps) (obj : Stack)
    (date12_to_drop : list string) : result (list string) :=
  match if_str (startDate inps) with
  | Some d => tempList ← tempList_startDate d obj;
              Ok (date12_to_drop ++ tempList)
  | None => Ok date12_to_drop
  end.

(** 2.7 *)
Definition rule_endDate (inps : Inps) (obj : Stack)
    (date12_to_drop : list string) : result (list string) :=
  match if_str (endDate inps) with
  | Some d => tempList ← tempList_endDate d obj;
              Ok (date12_to_drop ++ tempList)
  | None => Ok date12_to_drop
  end.

(** Blocks 1 to 2.7 in order: the list [date12_to_drop] when the code
    reaches the manual step. *)
Definition date12_to_drop_rules (inps : Inps) (obj : Stack) : result (list string) :=
  let date12_to_drop := [] in
  let date12_to_drop := rule_reference inps obj date12_to_drop in
  let date12_to_drop := rule_coherence inps obj date12_to_drop in
  let date12_to_drop := rule_tempBase inps obj date12_to_drop in
  let date12_to_drop := rule_perpBase inps obj date12_to_drop in
  date12_to_drop ← rule_excludeIfgIndex inps obj date12_to_drop;
  date12_to_drop ← rule_excludeDate inps obj date12_to_drop;
  date12_to_drop ← rule_startDate inps obj date12_to_drop;
  rule_endDate inps obj date12_to_drop.

(** What each rule appends: nothing when the rule is not enabled, its list
    otherwise.  These name the summands of [date12_to_drop_rules] in the
    statements below. *)
Definition contribution_reference (inps : Inps) (obj : Stack) : list string :=
  rule_reference inps obj [].
Definition contribution_coherence (inps : Inps) (obj : Stack) : list string :=
  rule_coherence inps obj [].
Definition contribution_tempBase (inps : Inps) (obj : Stack) : list string :=
  rule_tempBase inps obj [].
Definition contribution_perpBase (inps : Inps) (obj : Stack) : list string :=
  rule_perpBase inps obj [].
Definition contribution_excludeIfgIndex (inps : Inps) (obj : Stack) : result (list string) :=
  rule_excludeIfgIndex inps obj [].
Definition contribution_startDate (inps : Inps) (obj : Stack) : result (list string) :=
  rule_startDate inps obj [].
Definition contribution_endDate (inps : Inps) (obj : Stack) : result (list string) :=
  rule_endDate inps obj [].

(** Step 3: the manual selection.  [None] is the early [return None] taken
    when the user declines to proceed. *)
Definition date12_to_drop_manual (inps : Inps) (obj : Stack) (ui : Interaction)
    (date12_to_drop : list string) : option (list string) :=
  if manual inps then
    match manual_select_pairs_to_remove obj ui with
    | None => None
    | Some tempList =>
        let tempList := filter (λ i, i ∈ date12List obj) tempList in
        Some (date12_to_drop ++ tempList)
    end
  else Some date12_to_drop.

(** The pairs currently marked as dropped in the file. *)
Definition date12ListDropped (obj : Stack) : list string :=
  sorted_difference (date12List obj) (get_date12_list obj).

(** Step 4: remove duplicates, sort, and compare with the file. *)
Definition date12_to_drop_final (date12_to_drop : list string) (obj : Stack)
  : option (list string) :=
  let date12_to_drop := sorted_set_str (list_to_set date12_to_drop) in
  if decide (date12_to_drop = date12ListDropped obj) then None
  else Some date12_to_drop.

(** In the result [None] is Python's [None]: nothing to change. *)
Definition get_date12_to_drop (inps : Inps) (obj : Stack) (ui : Interaction)
  : result (option (list string)) :=
  date12_to_drop ← date12_to_drop_rules inps obj;
  match date12_to_drop_manual inps obj ui date12_to_drop with
  | None => Ok None
  | Some date12_to_drop => Ok (date12_to_drop_final date12_to_drop obj)
  end.

(** [inps2] enables every rule that [inps1] enables, with the same
    parameters: an option of [inps1] is either off or set as in [inps2]. *)
Definition sub_option {A} (a b : option A) : Prop := a = None ∨ a = b.

Definition enables_more (inps1 inps2 : Inps) : Prop :=
  sub_option (if_str (referenceFile inps1)) (if_str (referenceFile inps2))
  ∧ (coherenceBased inps1 = true → coherenceBased inps2 = true)
  ∧ keepMinSpanTree inps1 = keepMinSpanTree inps2
  ∧ minCoherence inps1 = minCoherence inps2
  ∧ sub_option (if_float (tempBaseMax inps1)) (if_float (tempBaseMax inps2))
  ∧ sub_option (if_float (perpBaseMax inps1)) (if_float (perpBaseMax inps2))
  ∧ sub_option (if_list (Some (excludeIfgIndex inps1)))
               (if_list (Some (excludeIfgIndex inps2)))
  ∧ sub_option (if_list (excludeDate inps1)) (if_list (excludeDate inps2))
  ∧ sub_option (if_str (startDate inps1)) (if_str (startDate inps2))
  ∧ sub_option (if_str (endDate inps1)) (if_str (endDate inps2))
  ∧ (manual inps1 = true → manual inps2 = true).

(** Two stacks that differ at most in their flags. *)
Definition same_data (obj' obj : Stack) : Prop :=
  date12List obj' = date12List obj ∧ cohList obj' = cohList obj
  ∧ tbaseIfgram obj' = tbaseIfgram obj ∧ pbaseIfgram obj' = pbaseIfgram obj.

(** *** read_template2inps and main *)

(** Lines 139 to 177 of [read_template2inps] copy the options found in the
    template dictionary onto [inps].  The dictionary, and with it the
    Python types of the values copied, comes from [readfile.read_template]
    and [ut.check_template_auto_value], which are not in the sources at
    hand, so this part is a parameter: it maps the template file and the
    options before to the options after, or raises.  The test that follows
    it, on lines 179 to 186, reads the options it leaves. *)
Variable update_inps_from_template : string → Inps → result Inps.

Definition read_template2inps (template_file : string) (inps : Inps)
  : result (Inps * list string) :=
  inps ← update_inps_from_template template_file inps;
  if no_option_found inps then
    Ok (set_reset true inps,
        ["No input option found to remove interferogram";
         "Keep all interferograms by enable --reset option"])
  else Ok (inps, []).

(** [main] after [cmdLineParse]: the stored stack before, the parsed
    options and the user's interaction give the stored stack afterwards and
    the outcome.  [sys.exit(1)] is the exception [SystemExit 1]. *)
Definition main (inps : Inps) (obj : Stack) (ui : Interaction)
  : Stack * result (option string) :=
  let r_inps :=
    match if_str (template_file inps) with
    | Some t => fst <$> read_template2inps t inps
    | None => Ok inps
    end in
  match r_inps with
  | Raise e => (obj, Raise e)
  | Ok inps =>
      if no_option_found inps then (obj, Raise (SystemExit 1))
      else if reset inps then
        let '(obj', _, r) := reset_network (file inps) obj in
        (obj', r ≫= λ _, Ok (Some (file inps)))
      else
        match get_date12_to_drop inps obj ui with
        | Raise e => (obj, Raise e)
        | Ok None => (obj, Ok None)
        | Ok (Some date12_to_drop) =>
            (update_drop_ifgram obj date12_to_drop, Ok None)
        end
  end.

End Collaborators.

End modify_network.

(** ** A small stack used to run the model

    Three acquisitions and the three pairs between them, as in the
    end-to-end scenario of the specification. *)
Module Scenario.
Import modify_network.

Definition A : string := "20080101_20080201".
Definition B : string := "20080201_20080301".
Definition C : string := "20080101_20080301".

Definition pair (d : string) (tb : Q) (coh : Q) : InterferogramRecord :=
  {| date12 := d; tbase := tb; pbase := 0; coherence := coh; dropIfgram := true |}.

Definition stack : Stack :=
  [pair A 31 (9 # 10); pair B 29 (4 # 10); pair C 60 (3 # 10)].

(** The stack once [C] has been dropped. *)
Definition stack_C_dropped : Stack :=
  [pair A 31 (9 # 10); pair B 29 (4 # 10);
   set_dropIfgram false (pair C 60 (3 # 10))].

(** Ten pairs, for the index parser. *)
Definition stack10 : Stack := replicate 10 (pair A 31 (9 # 10)).

(** The spanning tree of the scenario: with weights 0.1, 0.6 and 0.7 it is
    made of [A] and [B]. *)
Definition mst (date12ListAll : list string) (cohList : list Q) : list string :=
  [A; B].

Definition reference (f : string) : list string := [].

Definition template (f : string) (inps : Inps) : result Inps := Ok inps.

(** No option given on the command line. *)
Definition inps0 : Inps :=
  {| file := "ifgramStack.h5"; template_file := None; reset := false;
     tempBaseMax := None; perpBaseMax := None; referenceFile := None;
     excludeIfgIndex := []; excludeDate := None;
     startDate := None; endDate := None;
     coherenceBased := false; keepMinSpanTree := true;
     minCoherence := 7 # 10; manual := false |}.

Definition set_manual (b : bool) (inps : Inps) : Inps :=
  {| file := file inps; template_file := template_file inps; reset := reset inps;
     tempBaseMax := tempBaseMax inps; perpBaseMax := perpBaseMax inps;
     referenceFile := referenceFile inps;
     excludeIfgIndex := excludeIfgIndex inps; excludeDate := excludeDate inps;
     startDate := startDate inps; endDate := endDate inps;
     coherenceBased := coherenceBased inps;
     keepMinSpanTree := keepMinSpanTree inps;
     minCoherence := minCoherence inps; manual := b |}.

Definition inps_coherence : Inps :=
  {| file := "ifgramStack.h5"; template_file := None; reset := false;
     tempBaseMax := None; perpBaseMax := None; referenceFile := None;
     excludeIfgIndex := []; excludeDate := None;
     startDate := None; endDate := None;
     coherenceBased := true; keepMinSpanTree := true;
     minCoherence := 7 # 10; manual := false |}.

Definition inps_tempBase : Inps :=
  {| file := "ifgramStack.h5"; template_file := None; reset := false;
     tempBaseMax := Some 45%Q; perpBaseMax := None; referenceFile := None;
     excludeIfgIndex := []; excludeDate := None;
     startDate := None; endDate := None;
     coherenceBased := false; keepMinSpanTree := true;
     minCoherence := 7 # 10; manual := false |}.

(** The coherence-based rule together with a temporal baseline bound. *)
Definition inps_both : Inps :=
  {| file := "ifgramStack.h5"; template_file := None; reset := false;
     tempBaseMax := Some 30%Q; perpBaseMax := None; referenceFile := None;
     excludeIfgIndex := []; excludeDate := None;
     startDate := None; endDate := None;
     coherenceBased := true; keepMinSpanTree := true;
     minCoherence := 7 # 10; manual := false |}.

(** The coherence-based rule with the threshold raised to 0.95. *)
Definition inps_coherence_high : Inps :=
  {| file := "ifgramStack.h5"; template_file := None; reset := false;
     tempBaseMax := None; perpBaseMax := None; referenceFile := None;
     excludeIfgIndex := []; excludeDate := None;
     startDate := None; endDate := None;
     coherenceBased := true; keepMinSpanTree := true;
     minCoherence := 95 # 100; manual := false |}.

Definition inps_excludeDate : Inps :=
  {| file := "ifgramStack.h5"; template_file := None; reset := false;
     tempBaseMax := None; perpBaseMax := None; referenceFile := None;
     excludeIfgIndex := []; excludeDate := Some ["20080301"];
     startDate := None; endDate := None;
     coherenceBased := false; keepMinSpanTree := true;
     minCoherence := 7 # 10; manual := false |}.

Definition inps_template : Inps :=
  {| file := "ifgramStack.h5"; template_file := Some "pysarApp_template.txt";
     reset := false;
     tempBaseMax := None; perpBaseMax := None; referenceFile := None;
     excludeIfgIndex := []; excludeDate := None;
     startDate := None; endDate := None;
     coherenceBased := false; keepMinSpanTree := true;
     minCoherence := 7 # 10; manual := false |}.

(** A reference that keeps [A], [B] and a pair the stack does not have. *)
Definition reference_AB (f : string) : list string :=
  [A; B; "20070101_20080101"].

(** The day numbers of the three acquisitions of the scenario (2008 is a
    leap year); any other string is refused. *)
Definition ordinal_2008 (s : string) : result Z :=
  if String.eqb s "20080101" then Ok 733042
  else if String.eqb s "20080201" then Ok 733073
  else if String.eqb s "20080301" then Ok 733102
  else Raise (ValueError s).

(** The user clicks nothing and confirms; the user declines. *)
Definition ui_confirm : Interaction := {| clicks := []; proceed := true |}.
Definition ui_abort : Interaction := {| clicks := []; proceed := false |}.
(** The user clicks the two dates of [C] and confirms. *)
Definition ui_select_C : Interaction :=
  {| clicks := ["20080301"; "20080101"]; proceed := true |}.

End Scenario.

(** * Properties *)

(** ** Sorted lists of the elements of a set *)
Section SortedSet.

Lemma elem_of_sorted_set_str (X : gset string) (x : string) :
  x ∈ sorted_set_str X ↔ x ∈ X.
Proof.
  unfold sorted_set_str. rewrite merge_sort_Permutation. apply elem_of_elements.
Qed.

Lemma NoDup_sorted_set_str (X : gset string) : NoDup (sorted_set_str X).
Proof.
  unfold sorted_set_str. rewrite merge_sort_Permutation. apply NoDup_elements.
Qed.

Lemma Sorted_sorted_set_str (X : gset string) :
  StronglySorted String.le (sorted_set_str X).
Proof. apply (StronglySorted_merge_sort _). Qed.

(** Two sets with the same sorted list are the same set, and conversely:
    comparing the lists with [==] compares the sets. *)
Lemma sorted_set_str_inj (X Y : gset string) :
  sorted_set_str X = sorted_set_str Y ↔ X = Y.
Proof.
  split; [|by intros ->].
  intros E. apply set_eq. intros x.
  by rewrite <-!elem_of_sorted_set_str, E.
Qed.

Lemma elem_of_sorted_set_int (X : gset Z) (x : Z) :
  x ∈ sorted_set_int X ↔ x ∈ X.
Proof.
  unfold sorted_set_int. rewrite merge_sort_Permutation. apply elem_of_elements.
Qed.

Lemma NoDup_sorted_set_int (X : gset Z) : NoDup (sorted_set_int X).
Proof.
  unfold sorted_set_int. rewrite merge_sort_Permutation. apply NoDup_elements.
Qed.

Lemma Sorted_sorted_set_int (X : gset Z) :
  StronglySorted Z.le (sorted_set_int X).
Proof. apply (StronglySorted_merge_sort _). Qed.

End SortedSet.

(** ** The date helpers *)
Section Dates.
Import ptime.

Lemma yymmdd2yyyymmdd_prefix (d : string) :
  yymmdd2yyyymmdd d
  = (if decide (String.get 0 d = Some "9"%char) then "19" else "20") +:+ d.
Proof.
  destruct d as [|c d]; [done|].
  destruct c as [[] [] [] [] [] [] [] []]; reflexivity.
Qed.

Lemma yymmdd2yyyymmdd_length (d : string) :
  String.length (yymmdd2yyyymmdd d) = S (S (String.length d)).
Proof. rewrite yymmdd2yyyymmdd_prefix. by case_decide. Qed.

Lemma substring_all (d : string) : String.substring 0 (String.length d) d = d.
Proof. induction d as [|c d IH]; [done|]. simpl. by rewrite IH. Qed.

(** Dropping the century of an expanded six-character date gives the date
    back. *)
Lemma yymmdd1_yyyymmdd1 (d : string) :
  String.length d = 6%nat → yymmdd1 (yyyymmdd1 d) = d.
Proof.
  intros Hlen. unfold yyyymmdd1, yymmdd1. rewrite Hlen. simpl.
  rewrite yymmdd2yyyymmdd_length, Hlen. simpl.
  rewrite yymmdd2yyyymmdd_prefix.
  case_decide; simpl; rewrite <-Hlen; apply substring_all.
Qed.

Lemma is_yymmdd_length (d : string) :
  is_yymmdd d = true → String.length d = 6%nat.
Proof. unfold is_yymmdd. intros [H _]%andb_true_iff. by apply Nat.eqb_eq. Qed.

(** C6, as the code has it: [yyyymmdd] returns a string for every string.
    Six characters get the century in front, 19 when the first character is
    9 and 20 otherwise, whatever the characters are; a string of any other
    length comes back unchanged.  Nothing is checked and nothing fails. *)
Theorem yyyymmdd_accepts_any_string (d : string) :
  ∃ out, yyyymmdd (DStr d) = Some (DStr out)
    ∧ (String.length d = 6%nat →
       String.length out = 8%nat
       ∧ out = (if decide (String.get 0 d = Some "9"%char)
                then "19" else "20") +:+ d)
    ∧ (String.length d ≠ 6%nat → out = d).
Proof.
  exists (yyyymmdd1 d). split; [done|]. unfold yyyymmdd1. split.
  - intros Hlen. rewrite Hlen. simpl.
    by rewrite yymmdd2yyyymmdd_length, Hlen, yymmdd2yyyymmdd_prefix.
  - intros Hlen. by apply Nat.eqb_neq in Hlen as ->.
Qed.

(** C8: for a valid six-digit date, expanding, contracting and expanding
    again gives the eight-digit date of the first expansion; the
    contraction gives the six digits back. *)
Theorem yyyymmdd_round_trip (d : string) :
  is_yymmdd d = true →
  ∃ d8, yyyymmdd (DStr d) = Some (DStr d8)
    ∧ String.length d8 = 8%nat
    ∧ yymmdd (DStr d8) = Some (DStr d)
    ∧ ((yyyymmdd (DStr d) ≫= yymmdd) ≫= yyyymmdd) = Some (DStr d8).
Proof.
  intros Hlen%is_yymmdd_length. exists (yyyymmdd1 d).
  assert (Hback : yymmdd1 (yyyymmdd1 d) = d) by (by apply yymmdd1_yyyymmdd1).
  split_and!.
  - done.
  - unfold yyyymmdd1. rewrite Hlen. simpl.
    by rewrite yymmdd2yyyymmdd_length, Hlen.
  - simpl. by rewrite Hback.
  - simpl. by rewrite Hback.
Qed.

End Dates.

(** ** read_input_index_list *)
Section IndexList.
Import modify_network.

Lemma map_comp_Ok {A B} (f : A → result B) (l : list A) :
  (∀ x, x ∈ l → is_Ok (f x)) →
  ∃ ys, map_comp f l = Ok ys ∧ length ys = length l.
Proof.
  induction l as [|x l IH]; intros H; [by exists []|].
  destruct (H x) as [y Hy]; [by left|].
  destruct IH as (ys & Hys & Hlen); [intros z Hz; apply H; by right|].
  exists (y :: ys). simpl. rewrite Hy. simpl. rewrite Hys. simpl.
  by rewrite Hlen.
Qed.

Lemma sorted_int_length (l : list Z) : length (sorted_int l) = length l.
Proof. unfold sorted_int. by rewrite merge_sort_Permutation. Qed.

Lemma sorted_int_two (a b : Z) : sorted_int [a; b] = [Z.min a b; Z.max a b].
Proof.
  unfold sorted_int, merge_sort. simpl. unfold list_merge. simpl.
  case_decide; [by rewrite Z.min_l, Z.max_r by lia|].
  by rewrite Z.min_r, Z.max_l by lia.
Qed.

Lemma elem_of_range (a b n : Z) : n ∈ Py.range a (b + 1) ↔ a ≤ n ≤ b.
Proof. unfold Py.range. rewrite elem_of_seqZ. lia. Qed.

(** One token whose parts are integers: what it appends and prints. *)
Lemma read_index_token_Ok (idx : string) (zs : list Z) :
  map_comp Py.int (Py.split ":" idx) = Ok zs →
  ∃ out msgs, read_index_token idx = Ok (out, msgs)
    ∧ (∀ n, n ∈ out ↔ index_token_denotes idx n)
    ∧ ((2 < length zs)%nat → msgs = ["Unrecoganized input: " +:+ idx])
    ∧ ((length zs ≤ 2)%nat → (0 < length zs)%nat → msgs = []).
Proof.
  intros Hzs. unfold read_index_token, index_token_denotes. rewrite Hzs. simpl.
  destruct zs as [|a [|b [|c zs]]].
  - eexists _, _. split; [done|]. split_and!; simpl; try lia.
    intros n. rewrite elem_of_nil. split; [done|]. by intros [(?&?&?)|(?&?&?&?)].
  - eexists _, _. split; [done|]. split_and!; simpl; try lia; [|done].
    intros n. rewrite list_elem_of_singleton. split.
    + intros ->. left. by exists a.
    + intros [(a' & [= <-] & ->)|(? & ? & ? & _)]; done.
  - rewrite sorted_int_two. eexists _, _. split; [done|].
    split_and!; simpl; try lia; [|done].
    intros n. rewrite elem_of_range. split.
    + intros H. right. by exists a, b.
    + intros [(? & ? & _)|(a' & b' & [= <- <-] & H)]; done.
  - pose proof (sorted_int_length (a :: b :: c :: zs)) as Hlen.
    destruct (sorted_int (a :: b :: c :: zs)) as [|? [|? [|? ?]]];
      simpl in Hlen; try lia.
    eexists _, _. split; [done|]. split_and!; simpl; try lia; [|done].
    intros n. rewrite elem_of_nil. split; [done|].
    by intros [(?&?&?)|(?&?&?&?)].
Qed.

(** The loop over the tokens. *)
Lemma read_index_tokens_Ok (idxList : list string) :
  (∀ idx part, idx ∈ idxList → part ∈ Py.split ":" idx → is_Ok (Py.int part)) →
  ∃ out msgs, read_index_tokens idxList = Ok (out, msgs)
    ∧ (∀ n, n ∈ out ↔ ∃ idx, idx ∈ idxList ∧ index_token_denotes idx n)
    ∧ (∀ idx, idx ∈ idxList → (2 < length (Py.split ":" idx))%nat →
              ("Unrecoganized input: " +:+ idx) ∈ msgs).
Proof.
  induction idxList as [|idx rest IH]; intros H.
  - exists [], []. split; [done|]. split.
    + intros n. rewrite elem_of_nil. split; [done|].
      by intros (? & ?%elem_of_nil & _).
    + by intros ? ?%elem_of_nil.
  - destruct (map_comp_Ok Py.int (Py.split ":" idx)) as (zs & Hzs & Hlen);
      [intros part; apply H; by left|].
    destruct (read_index_token_Ok idx zs Hzs) as (o1 & m1 & H1 & Ho1 & Hm1 & _).
    destruct IH as (o2 & m2 & H2 & Ho2 & Hm2);
      [intros i part Hi; apply H; by right|].
    exists (o1 ++ o2), (m1 ++ m2). simpl. rewrite H1. simpl. rewrite H2. simpl.
    split; [done|]. split.
    + intros n. rewrite elem_of_app, Ho1, Ho2. split.
      * intros [Hd|(i & Hi & Hd)]; [exists idx|exists i]; split; try done;
          [by left|by right].
      * intros (i & [->|Hi]%elem_of_cons & Hd); [by left|right; by exists i].
    + intros i [->|Hi]%elem_of_cons Hl; rewrite elem_of_app.
      * left. rewrite Hm1 by lia. by left.
      * right. by apply Hm2.
Qed.

Lemma StronglySorted_lt (l : list Z) :
  StronglySorted Z.le l → NoDup l → StronglySorted Z.lt l.
Proof.
  induction 1 as [|x l Hs IH Hall]; [constructor|].
  intros [Hx Hnd]%NoDup_cons. constructor.
  - by apply IH.
  - rewrite Forall_forall in Hall |- *. intros y Hy.
    specialize (Hall y Hy). assert (x ≠ y) by (by intros ->). lia.
Qed.

Lemma StronglySorted_filter_lt (P : Z → Prop) `{∀ x, Decision (P x)} (l : list Z) :
  StronglySorted Z.lt l → StronglySorted Z.lt (filter P l).
Proof.
  induction 1 as [|x l Hs IH Hall]; [constructor|].
  destruct (decide (P x)).
  - rewrite filter_cons_True by done. constructor; [done|].
    rewrite Forall_forall in Hall |- *.
    intros y [_ Hy]%list_elem_of_filter. by apply Hall.
  - by rewrite filter_cons_False by done.
Qed.

Lemma parts_are_integers_spec (idxList : list string) :
  parts_are_integers idxList = true →
  ∀ idx part, idx ∈ idxList → part ∈ Py.split ":" idx → is_Ok (Py.int part).
Proof.
  unfold parts_are_integers. rewrite forallb_forall.
  intros H idx part Hi%list_elem_of_In Hp%list_elem_of_In.
  specialize (H idx Hi). rewrite forallb_forall in H. specialize (H part Hp).
  destruct (Py.int part) as [z|]; [by exists z|done].
Qed.

(** C5, as the code has it: for tokens whose parts all read as integers
    the parser returns a strictly increasing list that holds exactly the
    integers the tokens stand for, a token with more than two parts adds
    nothing and is reported, and with a stack at hand only the indices
    below its number of pairs are kept (there is no lower bound). *)
Theorem read_input_index_list_spec (idxList : list string)
    (stackFile : option Stack) :
  parts_are_integers idxList = true →
  ∃ out msgs, read_input_index_list idxList stackFile = Ok (out, msgs)
    ∧ StronglySorted Z.lt out
    ∧ (∀ n, n ∈ out ↔
            (∃ idx, idx ∈ idxList ∧ index_token_denotes idx n)
            ∧ ∀ obj, stackFile = Some obj → n < numIfgramOrig obj)
    ∧ (∀ idx, idx ∈ idxList → (2 < length (Py.split ":" idx))%nat →
              ("Unrecoganized input: " +:+ idx) ∈ msgs).
Proof.
  intros H. pose proof (parts_are_integers_spec _ H) as H'. clear H.
  rename H' into H.
  destruct (read_index_tokens_Ok idxList H) as (o & m & Ho & Hin & Hm).
  unfold read_input_index_list. rewrite Ho. simpl.
  assert (Hs : StronglySorted Z.lt (sorted_set_int (list_to_set o)))
    by (apply StronglySorted_lt;
        [apply Sorted_sorted_set_int|apply NoDup_sorted_set_int]).
  assert (He : ∀ n, n ∈ sorted_set_int (list_to_set o) ↔
                    ∃ idx, idx ∈ idxList ∧ index_token_denotes idx n)
    by (intros n; by rewrite elem_of_sorted_set_int, elem_of_list_to_set).
  destruct stackFile as [obj|]; eexists _, _; (split; [done|]); split_and!.
  - by apply StronglySorted_filter_lt.
  - intros n. rewrite list_elem_of_filter, He. split.
    + intros [Hlt Hd]. split; [done|]. by intros ? [= <-].
    + intros [Hd Hlt]. split; [by apply Hlt|done].
  - done.
  - done.
  - intros n. rewrite He. split; [|by intros [? _]].
    intros Hd. split; [done|]. by intros.
  - done.
Qed.

End IndexList.

(** ** reset_network *)
Section Reset.
Import modify_network.

Lemma sorted_set_str_empty : sorted_set_str ∅ = [].
Proof. unfold sorted_set_str. by rewrite elements_empty. Qed.

Lemma all_dropIfgram_Forall (obj : Stack) :
  all_dropIfgram obj = true ↔ Forall (λ r, dropIfgram r = true) obj.
Proof.
  unfold all_dropIfgram. rewrite forallb_forall, Forall_forall.
  by setoid_rewrite list_elem_of_In.
Qed.

Lemma set_dropIfgram_id (r : InterferogramRecord) :
  dropIfgram r = true → set_dropIfgram true r = r.
Proof. destruct r as [? ? ? ? b]. simpl. by intros ->. Qed.

Lemma reset_flags_id (obj : Stack) :
  all_dropIfgram obj = true → set_dropIfgram true <$> obj = obj.
Proof.
  rewrite all_dropIfgram_Forall. induction 1 as [|r obj Hr _ IH]; [done|].
  rewrite fmap_cons. by rewrite set_dropIfgram_id, IH.
Qed.

Lemma reset_flags_all (obj : Stack) :
  all_dropIfgram (set_dropIfgram true <$> obj) = true.
Proof. induction obj as [|r obj IH]; [done|]. rewrite fmap_cons. apply IH. Qed.

Lemma reset_flags_date12List (obj : Stack) :
  date12List (set_dropIfgram true <$> obj) = date12List obj.
Proof.
  unfold date12List. rewrite <-list_fmap_compose. by apply list_fmap_ext.
Qed.

(** When every flag is [True] the kept pairs are all the pairs and no pair
    is dropped. *)
Lemma all_kept (obj : Stack) :
  all_dropIfgram obj = true → get_date12_list obj = date12List obj.
Proof.
  rewrite all_dropIfgram_Forall. unfold get_date12_list, date12List.
  induction 1 as [|r obj Hr _ IH]; [done|].
  rewrite filter_cons_True by done. rewrite !fmap_cons. by rewrite IH.
Qed.

Lemma none_dropped (obj : Stack) :
  all_dropIfgram obj = true → date12ListDropped obj = [].
Proof.
  intros H. unfold date12ListDropped, sorted_difference.
  rewrite (all_kept _ H).
  replace (list_to_set (date12List obj) ∖ list_to_set (date12List obj))
    with (∅ : gset string); [apply sorted_set_str_empty|].
  apply set_eq. intros p. rewrite elem_of_difference.
  split; [by intros ?%elem_of_empty|tauto].
Qed.

(** The stored stack after a reset. *)
Lemma reset_network_state (stackFile : string) (obj : Stack) :
  (reset_network stackFile obj).1.1 = set_dropIfgram true <$> obj.
Proof.
  unfold reset_network. destruct (all_dropIfgram obj) eqn:H; [|done].
  symmetry. by apply reset_flags_id.
Qed.

(** C3: a reset leaves every pair's flag at [True] (no pair dropped) and
    changes nothing else; when every flag is [True] already it writes
    nothing and reports so; resetting a second time leaves the stored stack
    as the first reset left it. *)
Theorem reset_network_idempotent (stackFile : string) (obj : Stack) :
  let obj1 := (reset_network stackFile obj).1.1 in
  obj1 = set_dropIfgram true <$> obj
  ∧ Forall (λ r, dropIfgram r = true) obj1
  ∧ date12List obj1 = date12List obj
  ∧ date12ListDropped obj1 = []
  ∧ (all_dropIfgram obj = true →
     reset_network stackFile obj
     = (obj,
        ["reset dataset 'dropIfgram' to True for all interferograms for file: "
           +:+ stackFile;
         "All dropIfgram are already True, no need to reset."],
        Ok stackFile))
  ∧ (reset_network stackFile obj1).1.1 = obj1.
Proof.
  intros obj1. subst obj1. rewrite reset_network_state. split_and!.
  - done.
  - apply all_dropIfgram_Forall, reset_flags_all.
  - apply reset_flags_date12List.
  - apply none_dropped, reset_flags_all.
  - intros H. unfold reset_network. by rewrite H.
  - rewrite reset_network_state. apply reset_flags_id, reset_flags_all.
Qed.

End Reset.

(** ** The drop rules of [get_date12_to_drop] *)
Section Rules.
Import modify_network.

Variable reference_date12_list : string → list string.
Variable threshold_coherence_based_mst : list string → list Q → list string.

Abbreviation rules :=
  (date12_to_drop_rules reference_date12_list threshold_coherence_based_mst).
Abbreviation get_drop :=
  (get_date12_to_drop reference_date12_list threshold_coherence_based_mst).
Abbreviation c_reference := (contribution_reference reference_date12_list).
Abbreviation c_coherence := (contribution_coherence threshold_coherence_based_mst).

(** Each block appends its contribution to the list it is given. *)
Lemma rule_reference_app (inps : Inps) (obj : Stack) (d : list string) :
  rule_reference reference_date12_list inps obj d = d ++ c_reference inps obj.
Proof.
  unfold contribution_reference, rule_reference.
  destruct (if_str _); by rewrite ?app_nil_r.
Qed.

Lemma rule_coherence_app (inps : Inps) (obj : Stack) (d : list string) :
  rule_coherence threshold_coherence_based_mst inps obj d
  = d ++ c_coherence inps obj.
Proof.
  unfold contribution_coherence, rule_coherence.
  destruct (coherenceBased _); by rewrite ?app_nil_r.
Qed.

Lemma rule_tempBase_app (inps : Inps) (obj : Stack) (d : list string) :
  rule_tempBase inps obj d = d ++ contribution_tempBase inps obj.
Proof.
  unfold contribution_tempBase, rule_tempBase.
  destruct (if_float _); by rewrite ?app_nil_r.
Qed.

Lemma rule_perpBase_app (inps : Inps) (obj : Stack) (d : list string) :
  rule_perpBase inps obj d = d ++ contribution_perpBase inps obj.
Proof.
  unfold contribution_perpBase, rule_perpBase.
  destruct (if_float _); by rewrite ?app_nil_r.
Qed.

Lemma rule_excludeIfgIndex_app (inps : Inps) (obj : Stack) (d : list string) :
  rule_excludeIfgIndex inps obj d
  = t ← contribution_excludeIfgIndex inps obj; Ok (d ++ t).
Proof.
  unfold contribution_excludeIfgIndex, rule_excludeIfgIndex.
  destruct (if_list _); simpl; [|by rewrite app_nil_r].
  by destruct (tempList_excludeIfgIndex _ _).
Qed.

Lemma rule_startDate_app (inps : Inps) (obj : Stack) (d : list string) :
  rule_startDate inps obj d
  = t ← contribution_startDate inps obj; Ok (d ++ t).
Proof.
  unfold contribution_startDate, rule_startDate.
  destruct (if_str _); simpl; [|by rewrite app_nil_r].
  by destruct (tempList_startDate _ _).
Qed.

Lemma rule_endDate_app (inps : Inps) (obj : Stack) (d : list string) :
  rule_endDate inps obj d
  = t ← contribution_endDate inps obj; Ok (d ++ t).
Proof.
  unfold contribution_endDate, rule_endDate.
  destruct (if_str _); simpl; [|by rewrite app_nil_r].
  by destruct (tempList_endDate _ _).
Qed.

(** The list built by steps 1 to 2.7 is the concatenation of the enabled
    rules' lists, and it exists exactly when the date-exclusion rule is off
    and the index and date-bound rules raise nothing. *)
Lemma rules_Ok_iff (inps : Inps) (obj : Stack) (l : list string) :
  rules inps obj = Ok l ↔
  if_list (excludeDate inps) = None
  ∧ ∃ t_idx t_start t_end,
      contribution_excludeIfgIndex inps obj = Ok t_idx
      ∧ contribution_startDate inps obj = Ok t_start
      ∧ contribution_endDate inps obj = Ok t_end
      ∧ l = c_reference inps obj ++ c_coherence inps obj
            ++ contribution_tempBase inps obj ++ contribution_perpBase inps obj
            ++ t_idx ++ t_start ++ t_end.
Proof.
  unfold date12_to_drop_rules. cbv zeta.
  rewrite (rule_perpBase_app _ _ (rule_tempBase _ _ _)), rule_tempBase_app,
    rule_coherence_app, rule_reference_app.
  rewrite rule_excludeIfgIndex_app.
  destruct (contribution_excludeIfgIndex inps obj) as [t1|e1]; simpl;
    [|split; [done|by intros (_ & ? & ? & ? & ? & _)]].
  unfold rule_excludeDate.
  destruct (if_list (excludeDate inps)) as [excl|]; simpl;
    [split; [done|by intros [? _]]|].
  rewrite rule_startDate_app.
  destruct (contribution_startDate inps obj) as [t2|e2]; simpl;
    [|split; [done|by intros (_ & ? & ? & ? & _ & ? & _)]].
  rewrite rule_endDate_app.
  destruct (contribution_endDate inps obj) as [t3|e3]; simpl;
    [|split; [done|by intros (_ & ? & ? & ? & _ & _ & ? & _)]].
  split.
  - intros [= <-]. split; [done|]. exists t1, t2, t3.
    by rewrite <-!app_assoc.
  - intros (_ & ? & ? & ? & [= <-] & [= <-] & [= <-] & ->).
    by rewrite <-!app_assoc.
Qed.

(** Masking one column of the stack by a test on another column selects
    the records that pass the test. *)
Lemma boolean_index_fmap {A B C} (f : A → B) (g : A → C) (t : C → bool)
    (l : list A) :
  Py.boolean_index (f <$> l) (t <$> (g <$> l))
  = f <$> filter (λ r, t (g r) = true) l.
Proof.
  unfold Py.boolean_index. induction l as [|r l IH]; [done|].
  rewrite !fmap_cons. simpl zip.
  destruct (t (g r)) eqn:Ht.
  - rewrite !filter_cons_True by done. rewrite !fmap_cons. simpl. by rewrite IH.
  - rewrite !filter_cons_False by (simpl; congruence). done.
Qed.

(** The pairs whose coherence reaches the threshold. *)
Lemma elem_of_coh_date12_list (minCoh : Q) (obj : Stack) (p : string) :
  p ∈ coh_date12_list minCoh obj ↔
  ∃ r, r ∈ obj ∧ date12 r = p ∧ (minCoh <= coherence r)%Q.
Proof.
  unfold coh_date12_list, date12List, cohList.
  rewrite boolean_index_fmap, list_elem_of_fmap. split.
  - intros (r & -> & [Hc Hr]%list_elem_of_filter).
    exists r. by rewrite <-Qle_bool_iff.
  - intros (r & Hr & <- & Hc). exists r. split; [done|].
    apply list_elem_of_filter. by rewrite Qle_bool_iff.
Qed.

(** C1: with the coherence-based rule enabled and [keepMinSpanTree] on,
    the list the rule appends is the sorted list of the set
    full set - pairs with coherence >= minCoherence - spanning-tree pairs,
    it is part of every list the rules produce, and a pair of the spanning
    tree is never in it, whatever its coherence. *)
Theorem coherence_mst_rule_contribution (inps : Inps) (obj : Stack) :
  coherenceBased inps = true → keepMinSpanTree inps = true →
  let mstSet := threshold_coherence_based_mst (date12List obj) (cohList obj) in
  let tempList := tempList_coherence threshold_coherence_based_mst inps obj in
  c_coherence inps obj = tempList
  ∧ (∀ p, p ∈ tempList ↔
          p ∈ date12List obj
          ∧ ¬ (∃ r, r ∈ obj ∧ date12 r = p ∧ (minCoherence inps <= coherence r)%Q)
          ∧ p ∉ mstSet)
  ∧ StronglySorted String.le tempList ∧ NoDup tempList
  ∧ (∀ p, p ∈ mstSet → p ∉ tempList)
  ∧ (∀ l, rules inps obj = Ok l → ∀ p, p ∈ tempList → p ∈ l).
Proof.
  intros Hcoh Hmst mstSet tempList.
  assert (Hchar : ∀ p, p ∈ tempList ↔
            p ∈ date12List obj
            ∧ ¬ (∃ r, r ∈ obj ∧ date12 r = p ∧ (minCoherence inps <= coherence r)%Q)
            ∧ p ∉ mstSet).
  { intros p. subst tempList mstSet. unfold tempList_coherence, mst_date12_list.
    rewrite Hmst, elem_of_sorted_set_str, !elem_of_difference,
      !elem_of_list_to_set, elem_of_coh_date12_list. tauto. }
  assert (Hc : c_coherence inps obj = tempList)
    by (unfold contribution_coherence, rule_coherence; by rewrite Hcoh).
  split_and!; [done|done|apply Sorted_sorted_set_str|apply NoDup_sorted_set_str|..].
  - intros p Hp [_ [_ Hn]]%Hchar. done.
  - intros l (_ & t1 & t2 & t3 & _ & _ & _ & ->)%rules_Ok_iff p Hp.
    rewrite Hc, !elem_of_app. auto.
Qed.

(** The date-exclusion block never hands a list on: with a non-empty list
    of excluded dates the function raises, whatever the other options. *)
Lemma excludeDate_never_returns (inps : Inps) (obj : Stack) (ui : Interaction) :
  if_list (excludeDate inps) ≠ None → ∃ e, get_drop inps obj ui = Raise e.
Proof.
  intros Hex. unfold get_date12_to_drop.
  destruct (rules inps obj) as [l|e] eqn:Hr; [|by exists e].
  by apply rules_Ok_iff in Hr as [? _].
Qed.

(** The list the date-exclusion block computes before it raises. *)
Lemma elem_of_tempList_excludeDate (excl : list string) (obj : Stack) (p : string) :
  p ∈ tempList_excludeDate excl obj ↔
  p ∈ date12List obj ∧ ∃ j, j ∈ Py.split "_" p ∧ j ∈ excl.
Proof.
  unfold tempList_excludeDate, has_excluded_date.
  rewrite list_elem_of_filter, existsb_exists.
  setoid_rewrite <-list_elem_of_In. setoid_rewrite bool_decide_eq_true.
  tauto.
Qed.

(** The comparison of step 4 is a comparison of sets. *)
Lemma final_None_iff (l : list string) (obj : Stack) :
  date12_to_drop_final l obj = None ↔ ∀ p, p ∈ l ↔ p ∈ date12ListDropped obj.
Proof.
  unfold date12_to_drop_final, date12ListDropped, sorted_difference.
  case_decide as Heq.
  - split; [intros _|done]. apply sorted_set_str_inj in Heq.
    intros p. by rewrite elem_of_sorted_set_str, <-Heq, elem_of_list_to_set.
  - split; [done|]. intros Hp. destruct Heq. apply sorted_set_str_inj.
    apply set_eq. intros p.
    by rewrite elem_of_list_to_set, Hp, elem_of_sorted_set_str.
Qed.

Lemma final_Some (l : list string) (obj : Stack) :
  ¬ (∀ p, p ∈ l ↔ p ∈ date12ListDropped obj) →
  date12_to_drop_final l obj = Some (sorted_set_str (list_to_set l)).
Proof.
  intros Hne. destruct (date12_to_drop_final l obj) as [d|] eqn:Hd.
  - unfold date12_to_drop_final in Hd. by case_decide; simplify_eq.
  - destruct Hne. by apply final_None_iff.
Qed.

(** *** Enabling more rules *)

Lemma c_reference_mono (inps1 inps2 : Inps) (obj : Stack) (p : string) :
  enables_more inps1 inps2 →
  p ∈ c_reference inps1 obj → p ∈ c_reference inps2 obj.
Proof.
  intros (H & _). unfold contribution_reference, rule_reference.
  destruct H as [-> | ->]; [by intros ?%elem_of_nil|done].
Qed.

Lemma c_coherence_mono (inps1 inps2 : Inps) (obj : Stack) (p : string) :
  enables_more inps1 inps2 →
  p ∈ c_coherence inps1 obj → p ∈ c_coherence inps2 obj.
Proof.
  intros (_ & Hc & Hk & Hm & _).
  unfold contribution_coherence, rule_coherence, tempList_coherence.
  destruct (coherenceBased inps1); [|by intros ?%elem_of_nil].
  by rewrite (Hc eq_refl), Hk, Hm.
Qed.

Lemma c_tempBase_mono (inps1 inps2 : Inps) (obj : Stack) (p : string) :
  enables_more inps1 inps2 →
  p ∈ contribution_tempBase inps1 obj → p ∈ contribution_tempBase inps2 obj.
Proof.
  intros (_ & _ & _ & _ & H & _). unfold contribution_tempBase, rule_tempBase.
  destruct H as [-> | ->]; [by intros ?%elem_of_nil|done].
Qed.

Lemma c_perpBase_mono (inps1 inps2 : Inps) (obj : Stack) (p : string) :
  enables_more inps1 inps2 →
  p ∈ contribution_perpBase inps1 obj → p ∈ contribution_perpBase inps2 obj.
Proof.
  intros (_ & _ & _ & _ & _ & H & _). unfold contribution_perpBase, rule_perpBase.
  destruct H as [-> | ->]; [by intros ?%elem_of_nil|done].
Qed.

Lemma c_excludeIfgIndex_mono (inps1 inps2 : Inps) (obj : Stack)
    (t1 t2 : list string) (p : string) :
  enables_more inps1 inps2 →
  contribution_excludeIfgIndex inps1 obj = Ok t1 →
  contribution_excludeIfgIndex inps2 obj = Ok t2 →
  p ∈ t1 → p ∈ t2.
Proof.
  intros (_ & _ & _ & _ & _ & _ & H & _).
  unfold contribution_excludeIfgIndex, rule_excludeIfgIndex.
  destruct H as [-> | ->].
  - simpl. by intros [= <-] _ ?%elem_of_nil.
  - intros -> [= ->]. done.
Qed.

Lemma c_startDate_mono (inps1 inps2 : Inps) (obj : Stack)
    (t1 t2 : list string) (p : string) :
  enables_more inps1 inps2 →
  contribution_startDate inps1 obj = Ok t1 →
  contribution_startDate inps2 obj = Ok t2 →
  p ∈ t1 → p ∈ t2.
Proof.
  intros (_ & _ & _ & _ & _ & _ & _ & _ & H & _).
  unfold contribution_startDate, rule_startDate.
  destruct H as [-> | ->].
  - simpl. by intros [= <-] _ ?%elem_of_nil.
  - intros -> [= ->]. done.
Qed.

Lemma c_endDate_mono (inps1 inps2 : Inps) (obj : Stack)
    (t1 t2 : list string) (p : string) :
  enables_more inps1 inps2 →
  contribution_endDate inps1 obj = Ok t1 →
  contribution_endDate inps2 obj = Ok t2 →
  p ∈ t1 → p ∈ t2.
Proof.
  intros (_ & _ & _ & _ & _ & _ & _ & _ & _ & H & _).
  unfold contribution_endDate, rule_endDate.
  destruct H as [-> | ->].
  - simpl. by intros [= <-] _ ?%elem_of_nil.
  - intros -> [= ->]. done.
Qed.

Lemma rules_mono (inps1 inps2 : Inps) (obj : Stack) (a1 a2 : list string)
    (p : string) :
  enables_more inps1 inps2 →
  rules inps1 obj = Ok a1 → rules inps2 obj = Ok a2 → p ∈ a1 → p ∈ a2.
Proof.
  intros He (_ & i1 & s1 & e1 & Hi1 & Hs1 & He1 & ->)%rules_Ok_iff
            (_ & i2 & s2 & e2 & Hi2 & Hs2 & He2 & ->)%rules_Ok_iff.
  rewrite !elem_of_app.
  pose proof (c_reference_mono _ _ obj p He).
  pose proof (c_coherence_mono _ _ obj p He).
  pose proof (c_tempBase_mono _ _ obj p He).
  pose proof (c_perpBase_mono _ _ obj p He).
  pose proof (c_excludeIfgIndex_mono _ _ obj _ _ p He Hi1 Hi2).
  pose proof (c_startDate_mono _ _ obj _ _ p He Hs1 Hs2).
  pose proof (c_endDate_mono _ _ obj _ _ p He He1 He2).
  tauto.
Qed.

(** C9, as the code has it: when the run with fewer rules and the run with
    more rules both reach step 4 (no rule raises and the user does not
    decline a manual selection), every pair the first run wants dropped
    the second wants dropped too, so the second drops at least as many. *)
Theorem rule_union_monotone (inps1 inps2 : Inps) (obj : Stack) (ui : Interaction)
    (a1 a2 l1 l2 : list string) :
  enables_more inps1 inps2 →
  rules inps1 obj = Ok a1 → date12_to_drop_manual inps1 obj ui a1 = Some l1 →
  rules inps2 obj = Ok a2 → date12_to_drop_manual inps2 obj ui a2 = Some l2 →
  let drop1 := sorted_set_str (list_to_set l1) in
  let drop2 := sorted_set_str (list_to_set l2) in
  (∀ p, p ∈ drop1 → p ∈ drop2) ∧ (length drop1 ≤ length drop2)%nat.
Proof.
  intros He Hr1 Hm1 Hr2 Hm2 drop1 drop2.
  assert (Hsub : ∀ p, p ∈ drop1 → p ∈ drop2).
  { intros p. subst drop1 drop2.
    rewrite !elem_of_sorted_set_str, !elem_of_list_to_set.
    pose proof (rules_mono _ _ _ _ _ p He Hr1 Hr2) as Ha.
    destruct He as (_ & _ & _ & _ & _ & _ & _ & _ & _ & _ & Hman).
    unfold date12_to_drop_manual, manual_select_pairs_to_remove in Hm1, Hm2.
    destruct (manual inps1).
    - rewrite (Hman eq_refl) in Hm2.
      destruct (negb (proceed ui)); [done|].
      injection Hm1 as <-. injection Hm2 as <-.
      rewrite !elem_of_app. tauto.
    - injection Hm1 as <-.
      destruct (manual inps2); [|by injection Hm2 as <-].
      destruct (negb (proceed ui)); [done|].
      injection Hm2 as <-. rewrite elem_of_app. tauto. }
  split; [done|].
  apply submseteq_length, NoDup_submseteq; [apply NoDup_sorted_set_str|done].
Qed.

(** *** The write-back in [main] *)

Variable update_inps_from_template : string → Inps → result Inps.

Abbreviation run_main :=
  (main reference_date12_list threshold_coherence_based_mst
        update_inps_from_template).

(** [main] when no template is given, [--reset] is off and some option is
    on: the flags are rewritten exactly when the function returns a list. *)
Lemma main_filter (inps : Inps) (obj : Stack) (ui : Interaction) :
  if_str (template_file inps) = None → reset inps = false →
  no_option_found inps = false →
  run_main inps obj ui =
    match get_drop inps obj ui with
    | Raise e => (obj, Raise e)
    | Ok None => (obj, Ok None)
    | Ok (Some d) => (update_drop_ifgram obj d, Ok None)
    end.
Proof. intros Ht Hr Hn. unfold main. by rewrite Ht, Hn, Hr. Qed.

(** C4: once the rules have produced their lists, the function returns
    [None] exactly when the set of pairs to drop equals the set of pairs
    already dropped in the file, and [main] then leaves the file alone;
    otherwise it returns the sorted set of pairs to drop, which [main]
    writes back. *)
Theorem no_change_signal (inps : Inps) (obj : Stack) (ui : Interaction)
    (l0 l : list string) :
  rules inps obj = Ok l0 →
  date12_to_drop_manual inps obj ui l0 = Some l →
  let dropSet := sorted_set_str (list_to_set l) in
  (∀ p, p ∈ dropSet ↔ p ∈ l)
  ∧ StronglySorted String.le dropSet ∧ NoDup dropSet
  ∧ (dropSet = date12ListDropped obj ↔ ∀ p, p ∈ l ↔ p ∈ date12ListDropped obj)
  ∧ (dropSet = date12ListDropped obj → get_drop inps obj ui = Ok None)
  ∧ (dropSet ≠ date12ListDropped obj → get_drop inps obj ui = Ok (Some dropSet))
  ∧ (if_str (template_file inps) = None → reset inps = false →
     no_option_found inps = false →
     (dropSet = date12ListDropped obj → run_main inps obj ui = (obj, Ok None))
     ∧ (dropSet ≠ date12ListDropped obj →
        run_main inps obj ui = (update_drop_ifgram obj dropSet, Ok None))).
Proof.
  intros Hr Hm dropSet.
  assert (Hget : get_drop inps obj ui = Ok (date12_to_drop_final l obj))
    by (unfold get_date12_to_drop; by rewrite Hr; simpl; rewrite Hm).
  assert (Hfin : date12_to_drop_final l obj
                 = if decide (dropSet = date12ListDropped obj)
                   then None else Some dropSet) by done.
  split_and!.
  - intros p. subst dropSet. by rewrite elem_of_sorted_set_str, elem_of_list_to_set.
  - apply Sorted_sorted_set_str.
  - apply NoDup_sorted_set_str.
  - rewrite <-final_None_iff, Hfin. by case_decide.
  - intros Heq. rewrite Hget, Hfin. by case_decide.
  - intros Hne. rewrite Hget, Hfin. by case_decide.
  - intros Ht Hrs Hn. rewrite (main_filter _ _ _ Ht Hrs Hn), Hget, Hfin.
    split; intros ?; by case_decide.
Qed.

(** With [--manual] some option is on. *)
Lemma manual_option_found (inps : Inps) :
  manual inps = true → no_option_found inps = false.
Proof.
  intros Hm. unfold no_option_found. rewrite Hm. simpl.
  by rewrite !andb_false_r.
Qed.

(** C7: with [--manual], once the other rules have produced their list:
    if the user declines, the function returns [None] whatever that list
    is, and [main] leaves the file as it was; if the user confirms, the
    selection is cut down to the pairs of the stack and appended; a
    confirmed empty selection adds nothing and the other rules' list goes
    on to step 4. *)
Theorem manual_selection_rule (inps : Inps) (obj : Stack) (ui : Interaction)
    (l0 : list string) :
  manual inps = true → rules inps obj = Ok l0 →
  (proceed ui = false →
     manual_select_pairs_to_remove obj ui = None
     ∧ get_drop inps obj ui = Ok None
     ∧ (if_str (template_file inps) = None → reset inps = false →
        run_main inps obj ui = (obj, Ok None)))
  ∧ (proceed ui = true →
     ∃ sel, manual_select_pairs_to_remove obj ui = Some sel
       ∧ let tempList := filter (λ i, i ∈ date12List obj) sel in
         (∀ p, p ∈ tempList ↔ p ∈ sel ∧ p ∈ date12List obj)
         ∧ date12_to_drop_manual inps obj ui l0 = Some (l0 ++ tempList)
         ∧ get_drop inps obj ui = Ok (date12_to_drop_final (l0 ++ tempList) obj))
  ∧ (proceed ui = true → clicks ui = [] →
     manual_select_pairs_to_remove obj ui = Some []
     ∧ get_drop inps obj ui = Ok (date12_to_drop_final l0 obj)).
Proof.
  intros Hm Hr. split_and!.
  - intros Hp.
    assert (Hsel : manual_select_pairs_to_remove obj ui = None)
      by (unfold manual_select_pairs_to_remove; by rewrite Hp).
    assert (Hget : get_drop inps obj ui = Ok None).
    { unfold get_date12_to_drop, date12_to_drop_manual.
      by rewrite Hr; simpl; rewrite Hm, Hsel. }
    split_and!; [done..|].
    intros Ht Hrs.
    by rewrite (main_filter _ _ _ Ht Hrs (manual_option_found _ Hm)), Hget.
  - intros Hp. exists (onclick_all (date12List obj) [] [] (clicks ui)).
    split; [unfold manual_select_pairs_to_remove; by rewrite Hp|].
    cbv zeta. split_and!.
    + intros p. rewrite list_elem_of_filter. tauto.
    + unfold date12_to_drop_manual, manual_select_pairs_to_remove.
      by rewrite Hm, Hp.
    + unfold get_date12_to_drop, date12_to_drop_manual,
        manual_select_pairs_to_remove.
      by rewrite Hr; simpl; rewrite Hm, Hp.
  - intros Hp Hc.
    unfold get_date12_to_drop, date12_to_drop_manual,
      manual_select_pairs_to_remove.
    rewrite Hr; simpl; rewrite Hm, Hp, Hc. simpl.
    by rewrite app_nil_r.
Qed.

(** *** The template without options *)

Lemma no_option_found_reset (inps : Inps) :
  no_option_found (set_reset true inps) = false.
Proof. unfold no_option_found. simpl. by rewrite !andb_false_r. Qed.

(** C10: when the options left by the template and the command line
    enable nothing, [read_template2inps] turns [reset] on, and [main]
    then neither exits nor leaves the file as it was: it runs the reset,
    after which every pair is kept. *)
Theorem template_without_options_resets (inps inps' : Inps) (t : string)
    (obj : Stack) (ui : Interaction) :
  if_str (template_file inps) = Some t →
  update_inps_from_template t inps = Ok inps' →
  no_option_found inps' = true →
  read_template2inps update_inps_from_template t inps
    = Ok (set_reset true inps',
          ["No input option found to remove interferogram";
           "Keep all interferograms by enable --reset option"])
  ∧ reset (set_reset true inps') = true
  ∧ run_main inps obj ui = 
      ((reset_network (file inps') obj).1.1,
       (reset_network (file inps') obj).2 ≫= λ _, Ok (Some (file inps')))
  ∧ (run_main inps obj ui).1 = set_dropIfgram true <$> obj
  ∧ Forall (λ r, dropIfgram r = true) (run_main inps obj ui).1
  ∧ date12ListDropped (run_main inps obj ui).1 = []
  ∧ (run_main inps obj ui).2 ≠ Raise (SystemExit 1).
Proof.
  intros Ht Hu Hn.
  assert (Hread : read_template2inps update_inps_from_template t inps
    = Ok (set_reset true inps',
          ["No input option found to remove interferogram";
           "Keep all interferograms by enable --reset option"]))
    by (unfold read_template2inps; by rewrite Hu; simpl; rewrite Hn).
  assert (Hmain : run_main inps obj ui = 
      ((reset_network (file inps') obj).1.1,
       (reset_network (file inps') obj).2 ≫= λ _, Ok (Some (file inps')))).
  { unfold main. rewrite Ht, Hread. simpl.
    rewrite no_option_found_reset.
    by destruct (reset_network (file inps') obj) as [[? ?] ?]. }
  split_and!; [done..| | | |]; rewrite Hmain; simpl.
  - apply reset_network_state.
  - rewrite reset_network_state.
    apply all_dropIfgram_Forall, reset_flags_all.
  - rewrite reset_network_state. apply none_dropped, reset_flags_all.
  - unfold reset_network. by destruct (all_dropIfgram obj).
Qed.

End Rules.

(** ** The properties on the scenario *)
Section OnScenario.
Import modify_network Scenario.

Abbreviation get_drop := (get_date12_to_drop reference mst).
Abbreviation run_main := (main reference mst template).

(** The model run on the examples of the specification. *)
Example parse_indices_repeated_range :
  read_input_index_list ["2"; "4:6"; "4:6"] None = Ok ([2; 4; 5; 6], []).
Proof. by vm_compute. Qed.

Example parse_indices_reversed_range :
  read_input_index_list ["5:2"] None = Ok ([2; 3; 4; 5], []).
Proof. by vm_compute. Qed.

Example parse_indices_out_of_range :
  read_input_index_list ["100"] (Some stack10) = Ok ([], []).
Proof. by vm_compute. Qed.

Example coherence_mst_scenario :
  get_drop inps_coherence stack ui_confirm = Ok (Some [C]).
Proof. by vm_compute. Qed.

Example manual_selection_of_C :
  manual_select_pairs_to_remove stack ui_select_C = Some [C].
Proof. by vm_compute. Qed.

(** The scenario of the specification: [A] passes the threshold, [B] is kept
    by the spanning tree, only [C] is dropped. *)
Lemma coherence_mst_rule_contribution_witness :
  tempList_coherence mst inps_coherence stack = [C]
  ∧ B ∉ tempList_coherence mst inps_coherence stack.
Proof.
  pose proof (coherence_mst_rule_contribution reference mst
                inps_coherence stack eq_refl eq_refl) as (_ & _ & _ & _ & Hmst & _).
  split; [by vm_compute|].
  apply Hmst. unfold mst. rewrite !elem_of_cons. auto.
Defined.

(** C2: the stack of the scenario with the date 20080301 excluded.  The
    block computes the list of the pairs that contain the date, [B] and
    [C], and then raises [NameError]: the run produces no drop list. *)
Theorem excludeDate_rule_raises :
  tempList_excludeDate ["20080301"] stack = [B; C]
  ∧ rule_excludeDate inps_excludeDate stack [] = Raise (NameError "templist")
  ∧ get_drop inps_excludeDate stack ui_confirm = Raise (NameError "templist")
  ∧ run_main inps_excludeDate stack ui_confirm
    = (stack, Raise (NameError "templist")).
Proof. by vm_compute. Qed.

(** A reset of the untouched scenario writes nothing; a reset after [C] was
    dropped restores it. *)
Lemma reset_network_idempotent_witness :
  reset_network "ifgramStack.h5" stack
  = (stack,
     ["reset dataset 'dropIfgram' to True for all interferograms for file: ifgramStack.h5";
      "All dropIfgram are already True, no need to reset."],
     Ok "ifgramStack.h5")
  ∧ (reset_network "ifgramStack.h5" stack_C_dropped).1.1 = stack.
Proof.
  split.
  - apply (reset_network_idempotent "ifgramStack.h5" stack). reflexivity.
  - apply (reset_network_idempotent "ifgramStack.h5" stack_C_dropped).
Defined.

(** With [C] already dropped in the file the temporal-baseline rule has
    nothing to change; with nothing dropped it returns [C]. *)
Lemma no_change_signal_witness :
  get_drop inps_tempBase stack_C_dropped ui_confirm = Ok None
  ∧ run_main inps_tempBase stack_C_dropped ui_confirm = (stack_C_dropped, Ok None)
  ∧ get_drop inps_tempBase stack ui_confirm = Ok (Some [C])
  ∧ run_main inps_tempBase stack ui_confirm = (stack_C_dropped, Ok None).
Proof.
  pose proof (no_change_signal reference mst template inps_tempBase
                stack_C_dropped ui_confirm [C] [C]
                ltac:(by vm_compute) ltac:(by vm_compute))
    as (_ & _ & _ & _ & Hnone & _ & Hmain).
  pose proof (no_change_signal reference mst template inps_tempBase
                stack ui_confirm [C] [C]
                ltac:(by vm_compute) ltac:(by vm_compute))
    as (_ & _ & _ & _ & _ & Hsome & Hmain').
  assert (Hsame : sorted_set_str (list_to_set [C])
                  = date12ListDropped stack_C_dropped) by (by vm_compute).
  assert (Hdiff : sorted_set_str (list_to_set [C]) ≠ date12ListDropped stack)
    by (by vm_compute).
  destruct (Hmain eq_refl eq_refl eq_refl) as [Hskip _].
  destruct (Hmain' eq_refl eq_refl eq_refl) as [_ Hwrite].
  split_and!.
  - exact (Hnone Hsame).
  - exact (Hskip Hsame).
  - rewrite (Hsome Hdiff). by vm_compute.
  - rewrite (Hwrite Hdiff). by vm_compute.
Defined.

(** The user declines: nothing changes although the baseline rule would
    drop [C].  The user confirms after selecting [C], or nothing. *)
Lemma manual_selection_rule_witness :
  get_drop (set_manual true inps_tempBase) stack ui_abort = Ok None
  ∧ run_main (set_manual true inps_tempBase) stack ui_abort = (stack, Ok None)
  ∧ get_drop (set_manual true inps0) stack ui_select_C = Ok (Some [C])
  ∧ get_drop (set_manual true inps_tempBase) stack ui_confirm = Ok (Some [C]).
Proof.
  pose proof (manual_selection_rule reference mst template
                (set_manual true inps_tempBase) stack ui_abort [C]
                eq_refl ltac:(by vm_compute)) as (Habort & _ & _).
  pose proof (manual_selection_rule reference mst template
                (set_manual true inps0) stack ui_select_C []
                eq_refl ltac:(by vm_compute)) as (_ & Hsel & _).
  pose proof (manual_selection_rule reference mst template
                (set_manual true inps_tempBase) stack ui_confirm [C]
                eq_refl ltac:(by vm_compute)) as (_ & _ & Hempty).
  destruct (Habort eq_refl) as (_ & Hget & Hmain).
  destruct (Hsel eq_refl) as (sel & Hs & _ & _ & Hget').
  destruct (Hempty eq_refl eq_refl) as (_ & Hget'').
  split_and!.
  - exact Hget.
  - by apply Hmain.
  - rewrite Hget'. injection Hs as <-. by vm_compute.
  - rewrite Hget''. by vm_compute.
Defined.

(** C9 as stated fails when the added rule is the manual selection and the
    user declines: the baseline rule alone drops [C]; with the manual rule
    enabled as well the run returns [None] and the file keeps every pair. *)
Lemma rule_union_abort_counterexample :
  enables_more inps_tempBase (set_manual true inps_tempBase)
  ∧ get_drop inps_tempBase stack ui_abort = Ok (Some [C])
  ∧ get_drop (set_manual true inps_tempBase) stack ui_abort = Ok None
  ∧ date12ListDropped (run_main inps_tempBase stack ui_abort).1 = [C]
  ∧ date12ListDropped (run_main (set_manual true inps_tempBase) stack ui_abort).1 = []
  ∧ ¬ (∀ p, p ∈ date12ListDropped (run_main inps_tempBase stack ui_abort).1 →
            p ∈ date12ListDropped
                  (run_main (set_manual true inps_tempBase) stack ui_abort).1).
Proof.
  assert (H1 : date12ListDropped (run_main inps_tempBase stack ui_abort).1 = [C])
    by (by vm_compute).
  assert (H2 : date12ListDropped
                 (run_main (set_manual true inps_tempBase) stack ui_abort).1 = [])
    by (by vm_compute).
  split_and!; [|by vm_compute..|done|done|].
  - unfold enables_more, sub_option. simpl. split_and!; auto.
  - rewrite H1, H2. intros H. specialize (H C).
    rewrite list_elem_of_singleton in H. by apply elem_of_nil in H.
Qed.

(** Adding the temporal-baseline bound of 30 days to the coherence rule:
    [C] stays dropped and [A] is dropped too. *)
Lemma rule_union_monotone_witness :
  (∀ p, p ∈ sorted_set_str (list_to_set [C]) →
        p ∈ sorted_set_str (list_to_set [C; A; C]))
  ∧ (length (sorted_set_str (list_to_set [C]))
     ≤ length (sorted_set_str (list_to_set [C; A; C])))%nat.
Proof.
  assert (He : enables_more inps_coherence inps_both)
    by (unfold enables_more, sub_option; simpl; split_and!; auto).
  exact (rule_union_monotone reference mst inps_coherence inps_both stack
           ui_confirm [C] [C; A; C] [C] [C; A; C] He
           ltac:(by vm_compute) ltac:(by vm_compute)
           ltac:(by vm_compute) ltac:(by vm_compute)).
Defined.

(** A template that sets nothing, with [C] dropped in the file: the run
    restores [C]. *)
Lemma template_without_options_resets_witness :
  (run_main inps_template stack_C_dropped ui_confirm).1 = stack
  ∧ (run_main inps_template stack_C_dropped ui_confirm).2 ≠ Raise (SystemExit 1).
Proof.
  pose proof (template_without_options_resets reference mst template
                inps_template inps_template "pysarApp_template.txt"
                stack_C_dropped ui_confirm eq_refl eq_refl eq_refl)
    as (_ & _ & _ & Hst & _ & _ & Hex).
  split; [by rewrite Hst|exact Hex].
Defined.


(** Bare integers, ranges in either order, a repeated range, a token with
    three parts, an index past the ten pairs and a negative index. *)
Lemma read_input_index_list_spec_witness :
  read_input_index_list ["2"; "6:4"; "4:6"; "1:2:3"; "100"; "-1"] (Some stack10)
  = Ok ([-1; 2; 4; 5; 6], ["Unrecoganized input: 1:2:3"])
  ∧ ∃ out msgs,
      read_input_index_list ["2"; "6:4"; "4:6"; "1:2:3"; "100"; "-1"] (Some stack10)
      = Ok (out, msgs)
      ∧ StronglySorted Z.lt out.
Proof.
  split; [by vm_compute|].
  destruct (read_input_index_list_spec
              ["2"; "6:4"; "4:6"; "1:2:3"; "100"; "-1"] (Some stack10) eq_refl)
    as (out & msgs & Heq & Hs & _).
  by exists out, msgs.
Defined.

(** C5 as stated fails below zero: with ten pairs the index -1 is kept,
    outside the interval from 0 to the pair count.  And a token with two
    colons whose middle part is empty is not skipped: [int] raises on it. *)
Lemma index_list_not_clipped_below :
  read_input_index_list ["-1"] (Some stack10) = Ok ([-1], [])
  ∧ numIfgramOrig stack10 = 10
  ∧ ¬ (0 ≤ -1 < numIfgramOrig stack10)
  ∧ read_input_index_list ["1::3"] (Some stack10) = Raise (ValueError "").
Proof. split_and!; [by vm_compute..| |by vm_compute]. intros [? _]. lia. Qed.

(** C6 as stated fails: a string of four characters, one of ten, and six
    letters all come back as strings, none is refused. *)
Lemma yyyymmdd_never_fails :
  ptime.yyyymmdd (ptime.DStr "2008") = Some (ptime.DStr "2008")
  ∧ ptime.yyyymmdd (ptime.DStr "2008-05-20") = Some (ptime.DStr "2008-05-20")
  ∧ ptime.yyyymmdd (ptime.DStr "abcdef") = Some (ptime.DStr "20abcdef").
Proof. by vm_compute. Qed.

(** A date of the nineties, one of the two-thousands, and a date that has
    its eight digits already. *)
Lemma yyyymmdd_accepts_any_string_witness :
  ptime.yyyymmdd (ptime.DStr "980520") = Some (ptime.DStr "19980520")
  ∧ ptime.yyyymmdd (ptime.DStr "080520") = Some (ptime.DStr "20080520")
  ∧ ptime.yyyymmdd (ptime.DStr "20080520") = Some (ptime.DStr "20080520").
Proof.
  destruct (yyyymmdd_accepts_any_string "980520") as (o1 & -> & H1 & _).
  destruct (yyyymmdd_accepts_any_string "080520") as (o2 & -> & H2 & _).
  destruct (yyyymmdd_accepts_any_string "20080520") as (o3 & -> & _ & H3).
  destruct (H1 eq_refl) as [_ ->]. destruct (H2 eq_refl) as [_ ->].
  rewrite H3 by (simpl; lia). done.
Defined.

(** The 20th of May 1998, there and back. *)
Lemma yyyymmdd_round_trip_witness :
  ((ptime.yyyymmdd (ptime.DStr "980520") ≫= ptime.yymmdd) ≫= ptime.yyyymmdd)
  = Some (ptime.DStr "19980520")
  ∧ ptime.yymmdd (ptime.DStr "19980520") = Some (ptime.DStr "980520").
Proof.
  destruct (yyyymmdd_round_trip "980520" eq_refl) as (d8 & H8 & _ & Hb & Hr).
  injection H8 as <-. by split.
Defined.

End OnScenario.

(** * Further properties of the date helpers *)
Section MoreDates.
Import ptime.

Lemma yyyymmdd1_length (d : string) :
  String.length (yyyymmdd1 d)
  = if (String.length d =? 6)%nat then 8%nat else String.length d.
Proof.
  unfold yyyymmdd1. destruct (String.length d =? 6)%nat eqn:H; [|done].
  apply Nat.eqb_eq in H. by rewrite yymmdd2yyyymmdd_length, H.
Qed.

Lemma substring_length_le (n m : nat) (d : string) :
  (n + m ≤ String.length d)%nat →
  String.length (String.substring n m d) = m.
Proof.
  revert n m. induction d as [|c d IH]; intros [|n] [|m] H; simpl in *;
    try done; try lia.
  - rewrite (IH 0%nat m) by lia. done.
  - apply IH. lia.
  - apply IH. lia.
Qed.

Lemma yymmdd1_length (d : string) :
  String.length (yymmdd1 d)
  = if (String.length d =? 8)%nat then 6%nat else String.length d.
Proof.
  unfold yymmdd1. destruct (String.length d =? 8)%nat eqn:H; [|done].
  apply Nat.eqb_eq in H. apply substring_length_le. lia.
Qed.

Lemma yyyymmdd1_idemp (d : string) : yyyymmdd1 (yyyymmdd1 d) = yyyymmdd1 d.
Proof.
  unfold yyyymmdd1 at 1. rewrite yyyymmdd1_length.
  by destruct (String.length d =? 6)%nat eqn:H; [|rewrite H].
Qed.

Lemma yymmdd1_idemp (d : string) : yymmdd1 (yymmdd1 d) = yymmdd1 d.
Proof.
  unfold yymmdd1 at 1. rewrite yymmdd1_length.
  by destruct (String.length d =? 8)%nat eqn:H; [|rewrite H].
Qed.

(** X1: normalising twice is normalising once, for a string, for a list
    and for any other argument; the same holds for the contraction to six
    digits. *)
Theorem yyyymmdd_idempotent (dates : dates_arg) :
  (yyyymmdd dates ≫= yyyymmdd) = yyyymmdd dates
  ∧ (yymmdd dates ≫= yymmdd) = yymmdd dates.
Proof.
  destruct dates as [d|l|]; simpl; [| |done].
  - by rewrite yyyymmdd1_idemp, yymmdd1_idemp.
  - rewrite <-!list_fmap_compose. split; do 2 f_equal; apply list_fmap_ext;
      intros ? d _; simpl; [apply yyyymmdd1_idemp|apply yymmdd1_idemp].
Qed.

(** An eight-character date: its first two characters and the rest. *)
Lemma string_length_8 (d8 : string) :
  String.length d8 = 8%nat →
  ∃ a b rest, d8 = String a (String b rest) ∧ String.length rest = 6%nat.
Proof.
  destruct d8 as [|a [|b rest]]; simpl; try lia. intros [= H].
  by exists a, b, rest.
Qed.

(** X2: contracting an eight-character date and expanding it again gives
    the date back exactly when its century is the one the rule picks: 19
    in front of a 9, 20 in front of anything else.  Every other date comes
    back in another century. *)
Theorem yymmdd_yyyymmdd_century (d8 : string) :
  String.length d8 = 8%nat →
  ∃ d6, yymmdd (DStr d8) = Some (DStr d6)
    ∧ String.length d6 = 6%nat
    ∧ d6 = String.substring 2 6 d8
    ∧ (yyyymmdd (DStr d6) = Some (DStr d8)
       ↔ String.substring 0 2 d8
         = if decide (String.get 2 d8 = Some "9"%char) then "19" else "20").
Proof.
  intros Hlen. destruct (string_length_8 d8 Hlen) as (a & b & rest & -> & Hr).
  exists rest.
  assert (Hsub : String.substring 2 6 (String a (String b rest)) = rest)
    by (simpl; rewrite <-Hr; apply substring_all).
  assert (Hy : yymmdd1 (String a (String b rest)) = rest)
    by (unfold yymmdd1; by rewrite Hlen, Hsub).
  split_and!; [simpl; by rewrite Hy|done|done|].
  simpl. unfold yyyymmdd1. rewrite Hr. simpl.
  rewrite yymmdd2yyyymmdd_prefix.
  replace (String.get 2 (String a (String b rest))) with (String.get 0 rest)
    by done.
  destruct rest as [|c rest]; [done|]. simpl.
  case_decide; simpl; split; intros [= -> ->]; done.
Qed.

(** *** date_index *)

Lemma date_index_snoc (l : list string) (x : string) :
  date_index (l ++ [x]) = <[x := length l]> (date_index l).
Proof.
  unfold date_index. rewrite imap_app, foldl_app. simpl.
  by rewrite Nat.add_0_r.
Qed.

(** X3: [date_index] maps a date to the last position at which the list
    holds it, and holds no other key; when the dates are distinct, looking
    up the date at position [i] gives [i] back. *)
Theorem date_index_lookup (dateList : list string) :
  (∀ d i, date_index dateList !! d = Some i ↔
          dateList !! i = Some d
          ∧ ∀ j, (i < j)%nat → dateList !! j ≠ Some d)
  ∧ (∀ d, date_index dateList !! d = None ↔ d ∉ dateList)
  ∧ (NoDup dateList →
     ∀ i d, dateList !! i = Some d → date_index dateList !! d = Some i).
Proof.
  assert (Hlast : ∀ d i, date_index dateList !! d = Some i ↔
            dateList !! i = Some d
            ∧ ∀ j, (i < j)%nat → dateList !! j ≠ Some d).
  { induction dateList as [|x l IH] using rev_ind; intros d i.
    - unfold date_index. simpl. rewrite lookup_empty.
      split; [done|by intros [? _]].
    - rewrite date_index_snoc. destruct (decide (x = d)) as [->|Hne].
      + rewrite lookup_insert_eq. split.
        * intros [= <-]. split; [by apply list_lookup_middle|].
          intros j Hj. rewrite lookup_ge_None_2; [done|].
          rewrite length_app. simpl. lia.
        * intros [Hi Hlater]. f_equal.
          destruct (decide (i = length l)) as [->|Hn]; [done|].
          destruct (Hlater (length l)); [|by apply list_lookup_middle].
          apply lookup_lt_Some in Hi. rewrite length_app in Hi. simpl in Hi. lia.
      + rewrite lookup_insert_ne by done. rewrite IH. split.
        * intros [Hi Hlater]. split.
          { rewrite lookup_app_l; [done|]. by apply lookup_lt_Some in Hi. }
          intros j Hj. destruct (decide (j < length l)%nat).
          { rewrite lookup_app_l by done. by apply Hlater. }
          destruct (decide (j = length l)) as [->|].
          { rewrite list_lookup_middle by done. congruence. }
          rewrite lookup_ge_None_2; [done|]. rewrite length_app. simpl. lia.
        * intros [Hi Hlater].
          assert (i < length l)%nat as Hlt.
          { destruct (decide (i < length l)%nat); [done|].
            destruct (decide (i = length l)) as [->|].
            - rewrite list_lookup_middle in Hi by done. congruence.
            - apply lookup_lt_Some in Hi. rewrite length_app in Hi.
              simpl in Hi. lia. }
          rewrite lookup_app_l in Hi by done. split; [done|].
          intros j Hj Hjd. apply (Hlater j Hj).
          rewrite lookup_app_l; [done|]. by apply lookup_lt_Some in Hjd. }
  split_and!; [done| |].
  - intros d. rewrite list_elem_of_lookup. split.
    + intros Hn [i Hi].
      assert (∃ k, dateList !! k = Some d
                   ∧ ∀ j, (k < j)%nat → dateList !! j ≠ Some d)
        as (k & Hk & Hlater).
      { clear Hn Hlast. revert i Hi.
        induction dateList as [|x l IH] using rev_ind; intros i Hi; [done|].
        destruct (decide (x = d)) as [->|Hne].
        - exists (length l). split; [by apply list_lookup_middle|].
          intros j Hj. rewrite lookup_ge_None_2; [done|].
          rewrite length_app. simpl. lia.
        - assert (i < length l)%nat as Hlt.
          { destruct (decide (i < length l)%nat); [done|].
            destruct (decide (i = length l)) as [->|].
            - rewrite list_lookup_middle in Hi by done. congruence.
            - apply lookup_lt_Some in Hi. rewrite length_app in Hi.
              simpl in Hi. lia. }
          rewrite lookup_app_l in Hi by done.
          destruct (IH i Hi) as (k & Hk & Hlater). exists k. split.
          + rewrite lookup_app_l; [done|]. by apply lookup_lt_Some in Hk.
          + intros j Hj. destruct (decide (j < length l)%nat).
            { rewrite lookup_app_l by done. by apply Hlater. }
            destruct (decide (j = length l)) as [->|].
            { rewrite list_lookup_middle by done. congruence. }
            rewrite lookup_ge_None_2; [done|]. rewrite length_app. simpl. lia. }
      assert (date_index dateList !! d = Some k) by (by apply Hlast).
      congruence.
    + intros Hn. destruct (date_index dateList !! d) as [i|] eqn:Hd; [|done].
      apply Hlast in Hd as [Hi _]. destruct Hn. by exists i.
  - intros Hnd i d Hi. apply Hlast. split; [done|].
    intros j Hj Hjd. pose proof (NoDup_lookup _ _ _ _ Hnd Hi Hjd). lia.
Qed.

End MoreDates.

(** * Temporal baselines of a date list *)
Section MoreCalendar.
Import ptime.

Variable strptime_ordinal : string → result Z.

Lemma getitem_nil {A} (i : Z) : Py.getitem (@nil A) i = Raise IndexError.
Proof.
  unfold Py.getitem. change (Z.of_nat (length (@nil A))) with 0.
  set (j := if i <? 0 then i + 0 else i).
  by destruct (0 <=? j), (j <? 0).
Qed.

Lemma getitem_0_cons {A} (x : A) (l : list A) : Py.getitem (x :: l) 0 = Ok x.
Proof. done. Qed.

Lemma map_comp_Ok_iff {A B} (f : A → result B) (l : list A) (ys : list B) :
  map_comp f l = Ok ys ↔ Forall2 (λ x y, f x = Ok y) l ys.
Proof.
  revert ys. induction l as [|x l IH]; intros ys; simpl.
  - split; [intros [= <-]; constructor|by intros ->%Forall2_nil_inv_l].
  - destruct (f x) as [y|e] eqn:Hx; simpl.
    + destruct (map_comp f l) as [ys'|e'] eqn:Hl; simpl.
      * split.
        { intros [= <-]. constructor; [done|]. by apply IH. }
        intros (y' & ys'' & Hy & Hys & ->)%Forall2_cons_inv_l.
        apply IH in Hys. congruence.
      * split; [done|].
        intros (y' & ys'' & Hy & Hys & ->)%Forall2_cons_inv_l.
        by apply IH in Hys.
    + split; [done|].
      intros (y' & ys'' & Hy & Hys & ->)%Forall2_cons_inv_l. congruence.
Qed.

(** A dictionary filled from a list of keys and the list of their images:
    a key of the list maps to its image, any other key is as before. *)
Lemma foldl_insert_zip_fmap (g : string → Z) (l : list string)
    (m0 : gmap string Z) (d : string) :
  foldl (λ m p, <[p.1 := p.2]> m) m0 (zip l (g <$> l)) !! d
  = if decide (d ∈ l) then Some (g d) else m0 !! d.
Proof.
  revert m0. induction l as [|x l IH]; intros m0.
  - by rewrite decide_False by apply not_elem_of_nil.
  - rewrite fmap_cons. cbn [zip zip_with foldl]. rewrite IH. cbn [fst snd].
    destruct (decide (d ∈ l)) as [Hin|Hnin].
    + rewrite decide_True; [done|by right].
    + destruct (decide (d = x)) as [->|Hne].
      * rewrite decide_True by (by left). by rewrite lookup_insert_eq.
      * rewrite decide_False by (by intros [?|?]%elem_of_cons).
        by rewrite lookup_insert_ne.
Qed.

Lemma tbase_fmap (d1 : Z) (l : list string) (tbase : list Z) :
  map_comp (λ d, d2 ← strptime_ordinal d; Ok (d2 - d1)) l = Ok tbase →
  tbase = days_since strptime_ordinal d1 <$> l.
Proof.
  rewrite map_comp_Ok_iff. induction 1 as [|d t l tb Hd _ IH]; [done|].
  rewrite fmap_cons, <-IH. f_equal. unfold days_since.
  destruct (strptime_ordinal d); simpl in Hd; congruence.
Qed.

(** X4: [date_list2tbase] raises [IndexError] on an empty list and the
    parser's exception when a date does not read; otherwise it returns one
    baseline per date, the first of them 0, each the day number of its
    date less that of the first date, and a dictionary that maps every
    date of the list (normalised) to its baseline and holds nothing else. *)
Theorem date_list2tbase_spec (dateList : list string) :
  (dateList = [] → date_list2tbase strptime_ordinal dateList = Raise IndexError)
  ∧ (is_Ok (date_list2tbase strptime_ordinal dateList) ↔
     dateList ≠ []
     ∧ ∀ d, d ∈ yyyymmdd_list dateList → is_Ok (strptime_ordinal d))
  ∧ ∀ tbase dateDict,
      date_list2tbase strptime_ordinal dateList = Ok (tbase, dateDict) →
      length tbase = length dateList
      ∧ tbase !! 0%nat = Some 0
      ∧ (∀ i d t, yyyymmdd_list dateList !! i = Some d → tbase !! i = Some t →
           ∃ d0 o0 o, yyyymmdd_list dateList !! 0%nat = Some d0
             ∧ strptime_ordinal d0 = Ok o0 ∧ strptime_ordinal d = Ok o
             ∧ t = o - o0)
      ∧ (∀ i d, yyyymmdd_list dateList !! i = Some d →
                dateDict !! d = tbase !! i)
      ∧ (∀ d, dateDict !! d = None ↔ d ∉ yyyymmdd_list dateList).
Proof.
  unfold date_list2tbase. destruct dateList as [|x l].
  { split_and!; [done| |done].
    split; [by intros [? ?]|by intros [? _]]. }
  unfold yyyymmdd_list. rewrite fmap_cons.
  set (x8 := yyyymmdd1 x). set (l8 := yyyymmdd1 <$> l).
  rewrite getitem_0_cons. simpl.
  split_and!; [done| |].
  - split.
    + intros [[tb dd] H]. split; [done|].
      destruct (strptime_ordinal x8) as [o0|] eqn:H0; [|done]. simpl in H.
      destruct (map_comp _ l8) as [tb'|] eqn:Hm; [|done].
      apply map_comp_Ok_iff in Hm.
      intros d [->|Hd]%elem_of_cons; [by exists o0|].
      apply list_elem_of_lookup in Hd as [i Hi].
      destruct (Forall2_lookup_l _ _ _ _ _ Hm Hi) as (t & _ & Ht).
      destruct (strptime_ordinal d) as [o|]; [by exists o|done].
    + intros [_ Hall].
      destruct (Hall x8) as [o0 H0]; [by left|]. rewrite H0. simpl.
      destruct (map_comp_Ok (λ d, d2 ← strptime_ordinal d; Ok (d2 - o0)) l8)
        as (tb & -> & _).
      { intros d Hd. destruct (Hall d) as [o Ho]; [by right|].
        exists (o - o0). by rewrite Ho. }
      by eexists.
  - intros tbase dateDict H.
    destruct (strptime_ordinal x8) as [o0|] eqn:H0; [|done]. simpl in H.
    destruct (map_comp _ l8) as [tb|] eqn:Hm; [|done]. simpl in H.
    injection H as <- <-. rewrite Z.sub_diag.
    pose proof (tbase_fmap o0 l8 tb Hm) as ->.
    set (ds := days_since strptime_ordinal o0).
    assert (Hx : 0 = ds x8)
      by (subst ds; unfold days_since; rewrite H0; lia).
    assert (Hlook : ∀ i d t, (x8 :: l8) !! i = Some d →
              (0 :: (ds <$> l8)) !! i = Some t →
              t = ds d).
    { intros [|i] d t; simpl; [by intros [= <-] [= <-]|].
      intros Hd. rewrite list_lookup_fmap, Hd. by intros [= <-]. }
    assert (Hread : ∀ d, d ∈ x8 :: l8 → is_Ok (strptime_ordinal d)).
    { intros d [->|Hd]%elem_of_cons; [by exists o0|].
      apply map_comp_Ok_iff in Hm.
      apply list_elem_of_lookup in Hd as [i Hi].
      destruct (Forall2_lookup_l _ _ _ _ _ Hm Hi) as (t & _ & Ht).
      destruct (strptime_ordinal d) as [o|]; [by exists o|done]. }
    assert (Hdict : ∀ d,
      (<[x8:=0]> ∅ : gmap string Z) !! d = (if decide (d = x8) then Some 0 else None)).
    { intros d. case_decide as Hd; [subst; apply lookup_insert_eq|].
      by rewrite lookup_insert_ne, lookup_empty. }
    split_and!.
    + cbn [length]. subst l8. by rewrite !length_fmap.
    + done.
    + intros i d t Hd Ht. pose proof (Hlook i d t Hd Ht) as ->.
      destruct (Hread d) as [o Ho]; [by eapply list_elem_of_lookup_2|].
      exists x8, o0, o. split_and!; [done..|].
      subst ds. unfold days_since. by rewrite Ho.
    + intros i d Hd. rewrite foldl_insert_zip_fmap, Hdict.
      destruct ((0 :: (ds <$> l8)) !! i) as [t|] eqn:Ht.
      * pose proof (Hlook i d t Hd Ht) as ->.
        case_decide; [done|].
        destruct i as [|i]; simpl in Hd.
        -- injection Hd as <-. rewrite decide_True by done. by rewrite Hx.
        -- destruct H. by eapply list_elem_of_lookup_2.
      * apply lookup_ge_None in Ht. apply lookup_lt_Some in Hd.
        simpl in Ht, Hd. rewrite length_fmap in Ht. lia.
    + intros d. rewrite foldl_insert_zip_fmap, Hdict, elem_of_cons.
      repeat case_decide; split; try done; tauto.
Qed.

End MoreCalendar.

(** * Further properties of the index list *)
Section MoreIndexList.
Import modify_network.

Lemma int_Raise (s : string) (e : exn) :
  Py.int s = Raise e → e = ValueError s.
Proof.
  unfold Py.int. cbv zeta.
  generalize (match strip s with
              | String "-" ds => Z.opp <$> digits 0 false ds
              | String "+" ds => digits 0 false ds
              | _ => digits 0 false (strip s)
              end).
  intros [z|]; by intros [= <-].
Qed.

Lemma map_comp_Raise {A B} (f : A → result B) (l : list A) (e : exn) :
  map_comp f l = Raise e → ∃ x, x ∈ l ∧ f x = Raise e.
Proof.
  induction l as [|x l IH]; [done|]. simpl.
  destruct (f x) as [y|e'] eqn:Hx; simpl.
  - destruct (map_comp f l) as [ys|e'']; simpl; [done|].
    intros [= <-]. destruct IH as (z & Hz & Hfz); [done|].
    exists z. split; [by right|done].
  - intros [= <-]. exists x. split; [by left|done].
Qed.

Lemma read_index_token_Raise (idx : string) (e : exn) :
  read_index_token idx = Raise e →
  ∃ part, part ∈ Py.split ":" idx ∧ Py.int part = Raise e.
Proof.
  unfold read_index_token.
  destruct (map_comp Py.int (Py.split ":" idx)) as [zs|e'] eqn:Hm; simpl.
  - by destruct (sorted_int zs) as [|? [|? [|? ?]]].
  - intros [= <-]. by apply map_comp_Raise.
Qed.

Lemma read_index_tokens_Raise (idxList : list string) (e : exn) :
  read_index_tokens idxList = Raise e →
  ∃ idx part, idx ∈ idxList ∧ part ∈ Py.split ":" idx ∧ Py.int part = Raise e.
Proof.
  induction idxList as [|idx rest IH]; [done|]. simpl.
  destruct (read_index_token idx) as [[o m]|e'] eqn:Ht; simpl.
  - destruct (read_index_tokens rest) as [[o' m']|e'']; simpl; [done|].
    intros [= <-]. destruct IH as (i & part & Hi & Hp & He); [done|].
    exists i, part. split_and!; [by right|done..].
  - intros [= <-]. destruct (read_index_token_Raise _ _ Ht) as (part & Hp & He).
    exists idx, part. split_and!; [by left|done..].
Qed.

Lemma parts_are_integers_false (idxList : list string) :
  parts_are_integers idxList = false →
  ∃ e, read_index_tokens idxList = Raise e.
Proof.
  intros Hf. destruct (read_index_tokens idxList) as [[o m]|e] eqn:Hr; [|by exists e].
  assert (parts_are_integers idxList = true); [|congruence].
  clear Hf. revert o m Hr.
  induction idxList as [|idx rest IH]; intros o m; [done|]. simpl.
  destruct (read_index_token idx) as [[o1 m1]|] eqn:Ht; [|done]. simpl.
  destruct (read_index_tokens rest) as [[o2 m2]|] eqn:Hrest; [|done].
  intros _. rewrite (IH _ _ eq_refl), andb_true_r.
  unfold read_index_token in Ht.
  destruct (map_comp Py.int (Py.split ":" idx)) as [zs|] eqn:Hm; [|done].
  apply map_comp_Ok_iff in Hm. apply forallb_forall.
  intros part [i Hi]%list_elem_of_In%list_elem_of_lookup.
  destruct (Forall2_lookup_l _ _ _ _ _ Hm Hi) as (z & _ & ->). done.
Qed.

(** X5: the parser returns exactly when every part of every token reads
    as an integer; otherwise it raises the [ValueError] of [int] on a part
    that does not.  An empty token list gives the empty index list. *)
Theorem read_input_index_list_fails_iff (idxList : list string)
    (stackFile : option Stack) :
  (is_Ok (read_input_index_list idxList stackFile)
   ↔ parts_are_integers idxList = true)
  ∧ (∀ e, read_input_index_list idxList stackFile = Raise e →
          ∃ idx part, idx ∈ idxList ∧ part ∈ Py.split ":" idx
            ∧ Py.int part = Raise e ∧ e = ValueError part)
  ∧ read_input_index_list [] stackFile = Ok ([], []).
Proof.
  split_and!.
  - split.
    + intros [[o m] Hr]. destruct (parts_are_integers idxList) eqn:Hp; [done|].
      destruct (parts_are_integers_false _ Hp) as [e He].
      unfold read_input_index_list in Hr. by rewrite He in Hr.
    + intros Hp.
      destruct (read_index_tokens_Ok idxList (parts_are_integers_spec _ Hp))
        as (o & m & Ho & _).
      unfold read_input_index_list. rewrite Ho. simpl. by eexists.
  - intros e Hr. unfold read_input_index_list in Hr.
    destruct (read_index_tokens idxList) as [[o m]|e'] eqn:Ht; [done|].
    injection Hr as ->.
    destruct (read_index_tokens_Raise _ _ Ht) as (idx & part & Hi & Hp & He).
    exists idx, part. split_and!; [done..|]. by apply int_Raise in He.
  - by destruct stackFile; vm_compute.
Qed.

(** X6: only the set of tokens matters.  Two token lists with the same
    tokens, in any order and with any repetitions, give the same index
    list. *)
Theorem read_input_index_list_token_set (idxList1 idxList2 : list string)
    (stackFile : option Stack) (out : list Z) (msgs : list string) :
  (∀ idx, idx ∈ idxList1 ↔ idx ∈ idxList2) →
  read_input_index_list idxList1 stackFile = Ok (out, msgs) →
  ∃ msgs', read_input_index_list idxList2 stackFile = Ok (out, msgs').
Proof.
  intros Hsame Hr.
  assert (Hp1 : parts_are_integers idxList1 = true).
  { destruct (parts_are_integers idxList1) eqn:Hp; [done|].
    destruct (parts_are_integers_false _ Hp) as [e He].
    unfold read_input_index_list in Hr. by rewrite He in Hr. }
  pose proof (parts_are_integers_spec _ Hp1) as Hparts1.
  destruct (read_index_tokens_Ok idxList1 Hparts1) as (o1 & m1 & Ho1 & Hin1 & _).
  destruct (read_index_tokens_Ok idxList2) as (o2 & m2 & Ho2 & Hin2 & _).
  { intros idx part Hi. apply Hparts1. by apply Hsame. }
  unfold read_input_index_list in *. rewrite Ho1 in Hr. rewrite Ho2.
  simpl in *. injection Hr as <- <-. exists m2.
  assert (list_to_set o2 = (list_to_set o1 : gset Z)) as ->; [|done].
  apply set_eq. intros n. rewrite !elem_of_list_to_set, Hin1, Hin2.
  split; intros (idx & Hi & Hd); exists idx; split; try done; by apply Hsame.
Qed.

(** *** From the index list to the pairs *)

Lemma getitem_Ok {A} (l : list A) (i : Z) :
  - Z.of_nat (length l) ≤ i < Z.of_nat (length l) →
  ∃ x, Py.getitem l i = Ok x ∧ x ∈ l.
Proof.
  intros Hi. unfold Py.getitem.
  set (n := Z.of_nat (length l)) in *.
  set (j := if i <? 0 then i + n else i).
  assert (0 ≤ j < n) as Hj by (subst j; destruct (i <? 0) eqn:H;
    [apply Z.ltb_lt in H|apply Z.ltb_ge in H]; lia).
  rewrite (proj2 (Z.leb_le 0 j)), (proj2 (Z.ltb_lt j n)) by lia. simpl.
  destruct (l !! Z.to_nat j) as [x|] eqn:Hx.
  - exists x. split; [done|]. by eapply list_elem_of_lookup_2.
  - apply lookup_ge_None in Hx. lia.
Qed.

Lemma getitem_Raise {A} (l : list A) (i : Z) :
  ¬ (- Z.of_nat (length l) ≤ i < Z.of_nat (length l)) →
  Py.getitem l i = Raise IndexError.
Proof.
  intros Hi. unfold Py.getitem.
  set (n := Z.of_nat (length l)) in *.
  set (j := if i <? 0 then i + n else i).
  assert (¬ (0 ≤ j < n)) as Hj by (subst j; destruct (i <? 0) eqn:H;
    [apply Z.ltb_lt in H|apply Z.ltb_ge in H]; lia).
  destruct (0 <=? j) eqn:H1; [|done]. destruct (j <? n) eqn:H2; [|done].
  apply Z.leb_le in H1. apply Z.ltb_lt in H2. lia.
Qed.

Lemma numIfgramOrig_date12List (obj : Stack) :
  Z.of_nat (length (date12List obj)) = numIfgramOrig obj.
Proof. unfold date12List, numIfgramOrig. by rewrite length_fmap. Qed.

(** X7: the index rule returns the pairs at the given positions exactly
    when every index lies between minus the number of pairs and the number
    of pairs, and raises [IndexError] otherwise.  After
    [read_input_index_list] with the stack, only an index below minus the
    number of pairs can make it raise. *)
Theorem excludeIfgIndex_bounds (idx : list Z) (obj : Stack) :
  (is_Ok (tempList_excludeIfgIndex idx obj)
   ↔ Forall (λ i, - numIfgramOrig obj ≤ i < numIfgramOrig obj) idx)
  ∧ (∀ e, tempList_excludeIfgIndex idx obj = Raise e → e = IndexError)
  ∧ (∀ t, tempList_excludeIfgIndex idx obj = Ok t →
          length t = length idx ∧ ∀ p, p ∈ t → p ∈ date12List obj)
  ∧ (∀ idxList msgs,
       read_input_index_list idxList (Some obj) = Ok (idx, msgs) →
       (is_Ok (tempList_excludeIfgIndex idx obj)
        ↔ Forall (λ i, - numIfgramOrig obj ≤ i) idx)).
Proof.
  unfold tempList_excludeIfgIndex.
  assert (Hiff : is_Ok (map_comp (Py.getitem (date12List obj)) idx)
    ↔ Forall (λ i, - numIfgramOrig obj ≤ i < numIfgramOrig obj) idx).
  { split.
    - intros [t Ht%map_comp_Ok_iff]. apply Forall_forall.
      intros i [k Hk]%list_elem_of_lookup.
      destruct (Forall2_lookup_l _ _ _ _ _ Ht Hk) as (p & _ & Hp).
      destruct (decide (- numIfgramOrig obj ≤ i < numIfgramOrig obj)); [done|].
      rewrite getitem_Raise in Hp; [done|].
      by rewrite numIfgramOrig_date12List.
    - rewrite Forall_forall. intros Hall.
      destruct (map_comp_Ok (Py.getitem (date12List obj)) idx) as (t & Ht & _).
      + intros i Hi. destruct (getitem_Ok (date12List obj) i) as (p & Hp & _).
        * rewrite numIfgramOrig_date12List. by apply Hall.
        * by exists p.
      + by exists t. }
  split_and!; [done|..].
  - intros e (i & _ & Hi)%map_comp_Raise.
    destruct (decide (- numIfgramOrig obj ≤ i < numIfgramOrig obj)) as [Hin|Hout].
    + destruct (getitem_Ok (date12List obj) i) as (p & Hp & _);
        [by rewrite numIfgramOrig_date12List|congruence].
    + rewrite getitem_Raise in Hi by (by rewrite numIfgramOrig_date12List).
      congruence.
  - intros t Ht%map_comp_Ok_iff. split; [symmetry; by eapply Forall2_length|].
    intros p [k Hk]%list_elem_of_lookup.
    destruct (Forall2_lookup_r _ _ _ _ _ Ht Hk) as (i & _ & Hi).
    destruct (decide (- numIfgramOrig obj ≤ i < numIfgramOrig obj)) as [Hin|Hout].
    + destruct (getitem_Ok (date12List obj) i) as (p' & Hp & Hel);
        [by rewrite numIfgramOrig_date12List|congruence].
    + rewrite getitem_Raise in Hi by (by rewrite numIfgramOrig_date12List).
      congruence.
  - intros idxList msgs Hr. rewrite Hiff, !Forall_forall.
    assert (Hup : ∀ i, i ∈ idx → i < numIfgramOrig obj).
    { unfold read_input_index_list in Hr.
      destruct (read_index_tokens idxList) as [[o m]|]; [|done].
      simpl in Hr. injection Hr as <- <-.
      by intros i [? _]%list_elem_of_filter. }
    split; intros H i Hi; specialize (H i Hi); specialize (Hup i Hi); lia.
Qed.

End MoreIndexList.

(** * Further properties of the drop rules *)
Section MoreRules.
Import modify_network.

(** *** Baseline bounds *)

Lemma exceeds_iff (max x : Q) : exceeds max x = true ↔ (max < Qabs x)%Q.
Proof.
  unfold exceeds. rewrite negb_true_iff, <-not_true_iff_false, Qle_bool_iff.
  split; [apply Qnot_le_lt|apply Qlt_not_le].
Qed.

Lemma boolean_index_sublist {A} (l : list A) (mask : list bool) :
  Py.boolean_index l mask `sublist_of` l.
Proof.
  unfold Py.boolean_index. revert mask.
  induction l as [|x l IH]; intros [|b mask]; simpl;
    try apply sublist_nil_l.
  destruct b.
  - rewrite filter_cons_True by done. simpl. by apply sublist_skip.
  - rewrite filter_cons_False by done. by apply sublist_cons.
Qed.

(** X8: the temporal and perpendicular baseline rules list, in storage
    order, exactly the pairs whose baseline is larger than the bound in
    absolute value; a baseline equal to the bound is kept, and the sign of
    the baseline does not matter. *)
Theorem baseline_rules_spec (max : Q) (obj : Stack) :
  (∀ p, p ∈ tempList_tempBase max obj ↔
        ∃ r, r ∈ obj ∧ date12 r = p ∧ (max < Qabs (tbase r))%Q)
  ∧ (∀ p, p ∈ tempList_perpBase max obj ↔
          ∃ r, r ∈ obj ∧ date12 r = p ∧ (max < Qabs (pbase r))%Q)
  ∧ tempList_tempBase max obj `sublist_of` date12List obj
  ∧ tempList_perpBase max obj `sublist_of` date12List obj.
Proof.
  unfold tempList_tempBase, tempList_perpBase. cbv zeta.
  split_and!; try apply boolean_index_sublist;
    intros p; unfold date12List, tbaseIfgram, pbaseIfgram;
    rewrite boolean_index_fmap, list_elem_of_fmap; split.
  - intros (r & -> & [Hc Hr]%list_elem_of_filter). exists r.
    split_and!; [done..|]. by apply exceeds_iff.
  - intros (r & Hr & <- & Hc). exists r. split; [done|].
    apply list_elem_of_filter. split; [by apply exceeds_iff|done].
  - intros (r & -> & [Hc Hr]%list_elem_of_filter). exists r.
    split_and!; [done..|]. by apply exceeds_iff.
  - intros (r & Hr & <- & Hc). exists r. split; [done|].
    apply list_elem_of_filter. split; [by apply exceeds_iff|done].
Qed.

(** *** Date bounds *)

Lemma any_Ok {A} (p : A → result bool) (q : A → bool) (l : list A) :
  (∀ x, x ∈ l → p x = Ok (q x)) → Py.any p l = Ok (existsb q l).
Proof.
  induction l as [|x l IH]; intros H; [done|]. simpl.
  rewrite (H x) by (by left). simpl. destruct (q x); [done|].
  apply IH. intros y Hy. apply H. by right.
Qed.

Lemma filter_comp_Ok {A} (p : A → result bool) (q : A → bool) (l : list A) :
  (∀ x, x ∈ l → p x = Ok (q x)) →
  filter_comp p l = Ok (filter (λ x, q x = true) l).
Proof.
  induction l as [|x l IH]; intros H; [done|]. simpl.
  rewrite (H x) by (by left). simpl.
  rewrite IH by (intros y Hy; apply H; by right). simpl.
  destruct (q x) eqn:Hq.
  - by rewrite filter_cons_True.
  - rewrite filter_cons_False; [done|congruence].
Qed.

Lemma filter_comp_sublist {A} (p : A → result bool) (l t : list A) :
  filter_comp p l = Ok t → t `sublist_of` l.
Proof.
  revert t. induction l as [|x l IH]; intros t; simpl.
  - intros [= <-]. constructor.
  - destruct (p x) as [b|]; [|done]. simpl.
    destruct (filter_comp p l) as [r|]; [|done]. simpl.
    intros [= <-]. destruct b; [apply sublist_skip|apply sublist_cons]; by apply IH.
Qed.

Lemma dates_are_integers_spec (obj : Stack) :
  dates_are_integers obj = true →
  ∀ i j, i ∈ date12List obj → j ∈ Py.split "_" i → ∃ v, Py.int j = Ok v.
Proof.
  unfold dates_are_integers. rewrite forallb_forall.
  intros H i j Hi%list_elem_of_In Hj%list_elem_of_In.
  specialize (H i Hi). rewrite forallb_forall in H. specialize (H j Hj).
  destruct (Py.int j) as [v|]; [by exists v|done].
Qed.

(** The test of a date bound on the dates of a pair, when they all read. *)
Lemma date_test_Ok (test : Z → bool) (obj : Stack) :
  dates_are_integers obj = true →
  ∃ t, filter_comp
         (λ i, Py.any (λ j, v ← Py.int j; Ok (test v)) (Py.split "_" i))
         (date12List obj) = Ok t
    ∧ ∀ p, p ∈ t ↔
           p ∈ date12List obj
           ∧ ∃ j v, j ∈ Py.split "_" p ∧ Py.int j = Ok v ∧ test v = true.
Proof.
  intros Hd. pose proof (dates_are_integers_spec _ Hd) as Hint.
  set (qj := λ j, match Py.int j with Ok v => test v | Raise _ => false end).
  set (q := λ i, existsb qj (Py.split "_" i)).
  eexists. split.
  - apply (filter_comp_Ok _ q). intros i Hi. apply any_Ok.
    intros j Hj. destruct (Hint i j Hi Hj) as [v Hv].
    subst qj. simpl. by rewrite Hv.
  - intros p. rewrite list_elem_of_filter. subst q. simpl.
    rewrite existsb_exists. setoid_rewrite <-list_elem_of_In.
    split.
    + intros [(j & Hj & Hq) Hp]. split; [done|]. subst qj. simpl in Hq.
      destruct (Py.int j) as [v|] eqn:Hv; [|done]. by exists j, v.
    + intros [Hp (j & v & Hj & Hv & Ht)]. split; [|done].
      exists j. split; [done|]. subst qj. simpl. by rewrite Hv.
Qed.

(** X9: the start-date and end-date rules raise the [ValueError] of [int]
    when the bound does not read as an integer.  When it does, and the
    dates of the pairs read as well, they list the pairs with a date
    strictly before the start date, respectively strictly after the end
    date; a pair with a date on the bound itself is not listed. *)
Theorem date_bound_rules_spec (d : string) (obj : Stack) :
  (∀ e, Py.int d = Raise e →
        tempList_startDate d obj = Raise e ∧ tempList_endDate d obj = Raise e
        ∧ e = ValueError d)
  ∧ (∀ b, Py.int d = Ok b → dates_are_integers obj = true →
       ∃ ts te,
         tempList_startDate d obj = Ok ts ∧ tempList_endDate d obj = Ok te
         ∧ (∀ p, p ∈ ts ↔
                 p ∈ date12List obj
                 ∧ ∃ j v, j ∈ Py.split "_" p ∧ Py.int j = Ok v ∧ v < b)
         ∧ (∀ p, p ∈ te ↔
                 p ∈ date12List obj
                 ∧ ∃ j v, j ∈ Py.split "_" p ∧ Py.int j = Ok v ∧ b < v)).
Proof.
  unfold tempList_startDate, tempList_endDate. split.
  - intros e He. rewrite He. simpl. split_and!; [done..|].
    by apply int_Raise in He.
  - intros b Hb Hd. rewrite Hb. simpl.
    destruct (date_test_Ok (λ v, v <? b) obj Hd) as (ts & Hts & Hs).
    destruct (date_test_Ok (λ v, b <? v) obj Hd) as (te & Hte & He).
    exists ts, te. split_and!; [done..| |].
    + intros p. rewrite Hs. by setoid_rewrite Z.ltb_lt.
    + intros p. rewrite He. by setoid_rewrite Z.ltb_lt.
Qed.

(** *** Manual selection *)

Lemma onclick_all_in_stack (all date_click acc events : list string) :
  Forall (λ p, p ∈ all) acc →
  Forall (λ p, p ∈ all) (onclick_all all date_click acc events).
Proof.
  revert date_click acc. induction events as [|d rest IH];
    intros date_click acc Hacc; [done|].
  simpl. apply IH. destruct date_click as [|prev dc]; [done|].
  cbn [length].
  destruct (Nat.even (length dc) && negb (prev =? d)%string); [|done].
  destruct (sorted_pair prev d) as [mDate sDate].
  case_bool_decide; [|done].
  apply Forall_app. split; [done|]. by constructor.
Qed.

Lemma onclick_all_length (all date_click acc events : list string) :
  (2 * length (onclick_all all date_click acc events)
   ≤ 2 * length acc + (if Nat.even (length date_click) then 0 else 1)
     + length events)%nat.
Proof.
  revert date_click acc. induction events as [|d rest IH];
    intros date_click acc; [simpl; lia|].
  simpl onclick_all. etrans; [apply IH|].
  cbn [length]. rewrite Nat.even_succ, <-Nat.negb_even.
  destruct date_click as [|prev dc]; [simpl; lia|].
  cbn [length]. rewrite Nat.even_succ, <-Nat.negb_even.
  destruct (Nat.even (length dc)); simpl; [|lia].
  destruct (negb (prev =? d)%string); [|lia].
  destruct (sorted_pair prev d) as [mDate sDate].
  case_bool_decide; [|lia]. rewrite length_app. simpl. lia.
Qed.

(** X10: every pair that the manual selection returns is a pair of the
    stack, so the test the caller applies to the selection removes
    nothing; and two clicks are needed for each pair selected. *)
Theorem manual_selection_in_stack (obj : Stack) (ui : Interaction)
    (sel : list string) :
  manual_select_pairs_to_remove obj ui = Some sel →
  (∀ p, p ∈ sel → p ∈ date12List obj)
  ∧ filter (λ i, i ∈ date12List obj) sel = sel
  ∧ (2 * length sel ≤ length (clicks ui))%nat.
Proof.
  unfold manual_select_pairs_to_remove.
  destruct (negb (proceed ui)); [done|]. intros [= <-].
  pose proof (onclick_all_in_stack (date12List obj) [] [] (clicks ui)
                (Forall_nil_2 _)) as Hin.
  split_and!.
  - by apply Forall_forall.
  - induction Hin as [|p l Hp _ IH]; [done|].
    by rewrite filter_cons_True, IH.
  - pose proof (onclick_all_length (date12List obj) [] [] (clicks ui)) as H.
    simpl in H. lia.
Qed.

End MoreRules.

(** * The whole run *)
Section MoreMain.
Import modify_network.

Variable reference_date12_list : string → list string.
Variable threshold_coherence_based_mst : list string → list Q → list string.

Abbreviation rules' :=
  (date12_to_drop_rules reference_date12_list threshold_coherence_based_mst).
Abbreviation get_drop' :=
  (get_date12_to_drop reference_date12_list threshold_coherence_based_mst).

Lemma getitem_elem_of {A} (l : list A) (i : Z) (x : A) :
  Py.getitem l i = Ok x → x ∈ l.
Proof.
  unfold Py.getitem. destruct (_ && _); [|done].
  destruct (l !! _) as [y|] eqn:Hy; [|done]. intros [= <-].
  by eapply list_elem_of_lookup_2.
Qed.

Lemma map_comp_elem_of {A B} (f : A → result B) (l : list A) (ys : list B)
    (P : B → Prop) :
  (∀ x y, f x = Ok y → P y) → map_comp f l = Ok ys → ∀ y, y ∈ ys → P y.
Proof.
  intros Hf Hm%map_comp_Ok_iff y [k Hk]%list_elem_of_lookup.
  destruct (Forall2_lookup_r _ _ _ _ _ Hm Hk) as (x & _ & Hx). by eapply Hf.
Qed.

(** Every pair listed by blocks 1 to 2.7 is a pair of the stack. *)
Lemma rules_in_stack (inps : Inps) (obj : Stack) (l : list string) :
  rules' inps obj = Ok l → ∀ p, p ∈ l → p ∈ date12List obj.
Proof.
  intros (_ & t1 & t2 & t3 & H1 & H2 & H3 & ->)%rules_Ok_iff p.
  rewrite !elem_of_app. intros [Hp|[Hp|[Hp|[Hp|[Hp|[Hp|Hp]]]]]].
  - unfold contribution_reference, rule_reference in Hp.
    destruct (if_str _); [|by apply elem_of_nil in Hp].
    unfold tempList_reference, sorted_difference in Hp. simpl in Hp.
    rewrite elem_of_sorted_set_str, elem_of_difference, elem_of_list_to_set in Hp.
    tauto.
  - unfold contribution_coherence, rule_coherence in Hp.
    destruct (coherenceBased _); [|by apply elem_of_nil in Hp].
    unfold tempList_coherence in Hp. simpl in Hp.
    rewrite elem_of_sorted_set_str, !elem_of_difference, elem_of_list_to_set in Hp.
    tauto.
  - unfold contribution_tempBase, rule_tempBase in Hp.
    destruct (if_float _); [|by apply elem_of_nil in Hp].
    eapply elem_of_sublist; [exact Hp|apply boolean_index_sublist].
  - unfold contribution_perpBase, rule_perpBase in Hp.
    destruct (if_float _); [|by apply elem_of_nil in Hp].
    eapply elem_of_sublist; [exact Hp|apply boolean_index_sublist].
  - unfold contribution_excludeIfgIndex, rule_excludeIfgIndex in H1.
    destruct (if_list _); [|injection H1 as <-; by apply elem_of_nil in Hp].
    unfold tempList_excludeIfgIndex in H1.
    destruct (map_comp _ _) as [t|] eqn:Hm; [|done]. simpl in H1.
    injection H1 as <-.
    revert p Hp. eapply map_comp_elem_of; [|exact Hm].
    intros i y. apply getitem_elem_of.
  - unfold contribution_startDate, rule_startDate in H2.
    destruct (if_str _); [|injection H2 as <-; by apply elem_of_nil in Hp].
    destruct (tempList_startDate _ _) as [t|] eqn:Ht; [|done]. simpl in H2.
    injection H2 as <-. unfold tempList_startDate in Ht.
    destruct (Py.int _); [|done]. simpl in Ht.
    eapply elem_of_sublist; [exact Hp|by eapply filter_comp_sublist].
  - unfold contribution_endDate, rule_endDate in H3.
    destruct (if_str _); [|injection H3 as <-; by apply elem_of_nil in Hp].
    destruct (tempList_endDate _ _) as [t|] eqn:Ht; [|done]. simpl in H3.
    injection H3 as <-. unfold tempList_endDate in Ht.
    destruct (Py.int _); [|done]. simpl in Ht.
    eapply elem_of_sublist; [exact Hp|by eapply filter_comp_sublist].
Qed.

Lemma manual_in_stack (inps : Inps) (obj : Stack) (ui : Interaction)
    (l0 l : list string) :
  (∀ p, p ∈ l0 → p ∈ date12List obj) →
  date12_to_drop_manual inps obj ui l0 = Some l →
  ∀ p, p ∈ l → p ∈ date12List obj.
Proof.
  intros H0. unfold date12_to_drop_manual.
  destruct (manual inps); [|by intros [= <-]].
  destruct (manual_select_pairs_to_remove obj ui); [|done].
  intros [= <-] p [?|[? _]%list_elem_of_filter]%elem_of_app; auto.
Qed.

(** What the function returns, when it returns a list, in terms of the list
    that reaches step 4. *)
Lemma get_drop_Some (inps : Inps) (obj : Stack) (ui : Interaction)
    (d : list string) :
  get_drop' inps obj ui = Ok (Some d) →
  ∃ l0 l, rules' inps obj = Ok l0
    ∧ date12_to_drop_manual inps obj ui l0 = Some l
    ∧ d = sorted_set_str (list_to_set l)
    ∧ d ≠ date12ListDropped obj.
Proof.
  unfold get_date12_to_drop.
  destruct (rules' inps obj) as [l0|] eqn:Hr; [|done]. simpl.
  destruct (date12_to_drop_manual inps obj ui l0) as [l|] eqn:Hm; [|done].
  unfold date12_to_drop_final. case_decide; [done|]. intros [= <-].
  by exists l0, l.
Qed.

(** X11: a list returned by [get_date12_to_drop] is sorted, has no
    duplicates, holds only pairs of the stack, and differs from the list of
    the pairs already dropped in the file. *)
Theorem get_date12_to_drop_result (inps : Inps) (obj : Stack)
    (ui : Interaction) (d : list string) :
  get_drop' inps obj ui = Ok (Some d) →
  StronglySorted String.le d ∧ NoDup d
  ∧ (∀ p, p ∈ d → p ∈ date12List obj)
  ∧ d ≠ date12ListDropped obj.
Proof.
  intros (l0 & l & Hr & Hm & -> & Hne)%get_drop_Some.
  split_and!; [apply Sorted_sorted_set_str|apply NoDup_sorted_set_str| |done].
  intros p. rewrite elem_of_sorted_set_str, elem_of_list_to_set.
  eapply manual_in_stack; [|exact Hm]. by eapply rules_in_stack.
Qed.

(** X14: the reference rule lists, sorted and without duplicates, the
    pairs of the stack that the reference file does not keep; pairs that
    only the reference has play no part, and when the reference keeps every
    pair of the stack the rule lists nothing. *)
Theorem reference_rule_spec (f : string) (obj : Stack) :
  let tempList := tempList_reference reference_date12_list f obj in
  (∀ p, p ∈ tempList ↔ p ∈ date12List obj ∧ p ∉ reference_date12_list f)
  ∧ StronglySorted String.le tempList ∧ NoDup tempList
  ∧ ((∀ p, p ∈ date12List obj → p ∈ reference_date12_list f) → tempList = []).
Proof.
  intros tempList. subst tempList. unfold tempList_reference, sorted_difference.
  cbv zeta. split_and!.
  - intros p. by rewrite elem_of_sorted_set_str, elem_of_difference,
      !elem_of_list_to_set.
  - apply Sorted_sorted_set_str.
  - apply NoDup_sorted_set_str.
  - intros Hall.
    replace (list_to_set (date12List obj)
               ∖ list_to_set (reference_date12_list f))
      with (∅ : gset string); [apply sorted_set_str_empty|].
    apply set_eq. intros p.
    rewrite elem_of_difference, !elem_of_list_to_set.
    split; [by intros ?%elem_of_empty|]. intros [Hp Hn]. destruct Hn. auto.
Qed.

(** *** Writing the flags and running again *)

Lemma same_data_set (f : InterferogramRecord → bool) (obj : Stack) :
  same_data ((λ r, set_dropIfgram (f r) r) <$> obj) obj.
Proof.
  unfold same_data, date12List, cohList, tbaseIfgram, pbaseIfgram.
  rewrite <-!list_fmap_compose. split_and!; by apply list_fmap_ext.
Qed.

Lemma same_data_update (obj : Stack) (d : list string) :
  same_data (update_drop_ifgram obj d) obj.
Proof. apply same_data_set. Qed.

(** The rules read the pairs, the coherence and the baselines, not the
    flags. *)
Lemma rules_same_data (inps : Inps) (obj' obj : Stack) :
  same_data obj' obj → rules' inps obj' = rules' inps obj.
Proof.
  intros (Hd & Hc & Ht & Hp).
  unfold date12_to_drop_rules, rule_reference, rule_coherence, rule_tempBase,
    rule_perpBase, rule_excludeIfgIndex, rule_excludeDate, rule_startDate,
    rule_endDate, tempList_reference, tempList_coherence, tempList_tempBase,
    tempList_perpBase, tempList_excludeIfgIndex, tempList_excludeDate,
    tempList_startDate, tempList_endDate, coh_date12_list, mst_date12_list.
  by rewrite Hd, Hc, Ht, Hp.
Qed.

Lemma manual_same_data (inps : Inps) (obj' obj : Stack) (ui : Interaction)
    (l : list string) :
  same_data obj' obj →
  date12_to_drop_manual inps obj' ui l = date12_to_drop_manual inps obj ui l.
Proof.
  intros (Hd & _).
  unfold date12_to_drop_manual, manual_select_pairs_to_remove.
  by rewrite Hd.
Qed.

(** After the flags are rewritten for a sorted set of pairs of the stack,
    the pairs dropped in the file are that set. *)
Lemma dropped_after_update (obj : Stack) (l : list string) :
  (∀ p, p ∈ l → p ∈ date12List obj) →
  date12ListDropped (update_drop_ifgram obj (sorted_set_str (list_to_set l)))
  = sorted_set_str (list_to_set l).
Proof.
  intros Hin. set (d := sorted_set_str (list_to_set l)).
  unfold date12ListDropped, sorted_difference.
  destruct (same_data_update obj d) as (-> & _).
  subst d. apply sorted_set_str_inj. apply set_eq. intros p.
  rewrite elem_of_difference, !elem_of_list_to_set.
  unfold get_date12_list, update_drop_ifgram.
  rewrite list_elem_of_fmap. setoid_rewrite list_elem_of_filter.
  setoid_rewrite list_elem_of_fmap.
  split.
  - intros [(r & -> & Hr) Hn].
    destruct (decide (date12 r ∈ l)) as [|Hnl]; [done|].
    destruct Hn. exists (set_dropIfgram true r). split; [done|].
    split; [done|]. exists r. split; [|done]. f_equal. symmetry.
    apply bool_decide_eq_true.
    by rewrite elem_of_sorted_set_str, elem_of_list_to_set.
  - intros Hp. split.
    + apply Hin in Hp. by apply list_elem_of_fmap in Hp.
    + intros (r' & -> & Hflag & r & -> & Hr). simpl in *.
      apply bool_decide_eq_true in Hflag. destruct Hflag.
      by rewrite elem_of_sorted_set_str, elem_of_list_to_set.
Qed.

Variable update_inps_from_template : string → Inps → result Inps.

Abbreviation run_main' :=
  (main reference_date12_list threshold_coherence_based_mst
        update_inps_from_template).

(** [main] once the options are settled. *)
Lemma main_cases (inps : Inps) (obj : Stack) (ui : Interaction) :
  (∃ e, run_main' inps obj ui = (obj, Raise e))
  ∨ (∃ inps', run_main' inps obj ui
       = ((reset_network (file inps') obj).1.1,
          (reset_network (file inps') obj).2 ≫= λ _, Ok (Some (file inps')))
       ∧ ∀ obj', run_main' inps obj' ui
           = ((reset_network (file inps') obj').1.1,
              (reset_network (file inps') obj').2
                ≫= λ _, Ok (Some (file inps'))))
  ∨ (∃ inps', (∀ obj', same_data obj' obj → run_main' inps obj' ui =
         match get_drop' inps' obj' ui with
         | Raise e => (obj', Raise e)
         | Ok None => (obj', Ok None)
         | Ok (Some d) => (update_drop_ifgram obj' d, Ok None)
         end)).
Proof.
  unfold main.
  destruct (match if_str (template_file inps) with
            | Some t => _ | None => _ end) as [inps'|e]; [|left; by exists e].
  destruct (no_option_found inps'); [left; by eexists|].
  destruct (reset inps').
  - right. left. exists inps'. split.
    + by destruct (reset_network (file inps') obj) as [[? ?] ?].
    + intros obj'. by destruct (reset_network (file inps') obj') as [[? ?] ?].
  - right. right. by exists inps'.
Qed.

Lemma same_data_refl (obj : Stack) : same_data obj obj.
Proof. done. Qed.

(** X12: running [main] again on the file it left, with the same options
    and the same answers of the user, leaves the file as it is; and once
    the list returned by [get_date12_to_drop] has been written, the pairs
    dropped in the file are that list and the function reports that there
    is nothing to change. *)
Theorem main_idempotent (inps : Inps) (obj : Stack) (ui : Interaction) :
  (run_main' inps (run_main' inps obj ui).1 ui).1 = (run_main' inps obj ui).1
  ∧ ∀ d, get_drop' inps obj ui = Ok (Some d) →
         date12ListDropped (update_drop_ifgram obj d) = d
         ∧ get_drop' inps (update_drop_ifgram obj d) ui = Ok None.
Proof.
  assert (Hagain : ∀ inps d, get_drop' inps obj ui = Ok (Some d) →
            date12ListDropped (update_drop_ifgram obj d) = d
            ∧ get_drop' inps (update_drop_ifgram obj d) ui = Ok None).
  { clear inps. intros inps d (l0 & l & Hr & Hm & -> & Hne)%get_drop_Some.
    assert (Hin : ∀ p, p ∈ l → p ∈ date12List obj)
      by (eapply manual_in_stack; [|exact Hm]; by eapply rules_in_stack).
    pose proof (dropped_after_update obj l Hin) as Hd. split; [done|].
    unfold get_date12_to_drop.
    rewrite (rules_same_data _ _ _ (same_data_update _ _)), Hr. simpl.
    rewrite (manual_same_data _ _ _ _ _ (same_data_update _ _)), Hm.
    unfold date12_to_drop_final. by rewrite Hd, decide_True. }
  split; [|by apply Hagain].
  destruct (main_cases inps obj ui) as [[e He]|[(inps' & He & Hall)|(inps' & Hall)]].
  - rewrite He. simpl. by rewrite He.
  - rewrite He. simpl. rewrite Hall. simpl.
    rewrite !reset_network_state. apply reset_flags_id, reset_flags_all.
  - rewrite (Hall obj (same_data_refl obj)).
    destruct (get_drop' inps' obj ui) as [[d|]|e] eqn:Hg; simpl.
    + rewrite (Hall _ (same_data_update obj d)).
      by destruct (Hagain inps' d Hg) as [_ ->].
    + by rewrite (Hall obj (same_data_refl obj)), Hg.
    + by rewrite (Hall obj (same_data_refl obj)), Hg.
Qed.


End MoreMain.

(** * Thresholds and clicks *)
Section MoreSelection.
Import modify_network.

Variable threshold_coherence_based_mst : list string → list Q → list string.

Abbreviation coherence_list :=
  (tempList_coherence threshold_coherence_based_mst).

Lemma elem_of_tempList_coherence (inps : Inps) (obj : Stack) (p : string) :
  p ∈ coherence_list inps obj ↔
  p ∈ date12List obj
  ∧ ¬ (∃ r, r ∈ obj ∧ date12 r = p ∧ (minCoherence inps <= coherence r)%Q)
  ∧ p ∉ mst_date12_list threshold_coherence_based_mst
          (keepMinSpanTree inps) obj.
Proof.
  unfold tempList_coherence.
  rewrite elem_of_sorted_set_str, !elem_of_difference, !elem_of_list_to_set,
    elem_of_coh_date12_list. tauto.
Qed.

(** X15: the coherence rule lists more pairs when the threshold is higher
    and more pairs when the spanning tree is not kept; without the
    spanning tree it lists every pair of the stack that has no record
    reaching the threshold. *)
Theorem coherence_rule_monotone (inps1 inps2 : Inps) (obj : Stack) :
  (keepMinSpanTree inps1 = keepMinSpanTree inps2 →
   (minCoherence inps1 <= minCoherence inps2)%Q →
   ∀ p, p ∈ coherence_list inps1 obj → p ∈ coherence_list inps2 obj)
  ∧ (minCoherence inps1 = minCoherence inps2 →
     keepMinSpanTree inps2 = false →
     ∀ p, p ∈ coherence_list inps1 obj → p ∈ coherence_list inps2 obj)
  ∧ (keepMinSpanTree inps2 = false →
     ∀ p, p ∈ coherence_list inps2 obj ↔
          p ∈ date12List obj
          ∧ ¬ (∃ r, r ∈ obj ∧ date12 r = p
                    ∧ (minCoherence inps2 <= coherence r)%Q)).
Proof.
  split_and!.
  - intros Hk Hle p. rewrite !elem_of_tempList_coherence, Hk.
    intros (Hp & Hn & Hm). split_and!; [done| |done].
    intros (r & Hr & Hd & Hc). apply Hn. exists r. split_and!; [done..|].
    by apply (Qle_trans _ (minCoherence inps2)).
  - intros Hc Hk p. rewrite !elem_of_tempList_coherence, Hc, Hk.
    intros (Hp & Hn & _). split_and!; [done..|]. simpl. apply not_elem_of_nil.
  - intros Hk p. rewrite elem_of_tempList_coherence, Hk. simpl.
    pose proof (not_elem_of_nil p). tauto.
Qed.

(** *** The order of the clicks *)

(** The clicks so far matter only through their number, odd or even, and,
    when it is odd, through the last of them. *)
Lemma onclick_all_irrel (all dc1 dc2 acc events : list string) :
  Nat.even (length dc1) = Nat.even (length dc2) →
  (Nat.even (length dc1) = false → head dc1 = head dc2) →
  onclick_all all dc1 acc events = onclick_all all dc2 acc events.
Proof.
  revert dc1 dc2 acc. induction events as [|d rest IH];
    intros dc1 dc2 acc Hpar Hhead; [done|].
  simpl onclick_all.
  etrans; [apply (IH _ (d :: dc2))|f_equal].
  - cbn [length]. by rewrite !Nat.even_succ, <-!Nat.negb_even, Hpar.
  - done.
  - destruct dc1 as [|p1 dc1], dc2 as [|p2 dc2]; cbn [length head] in *;
      rewrite ?Nat.even_succ, <-?Nat.negb_even in *.
    + done.
    + by destruct (Nat.even (length dc2)); simpl in *.
    + by destruct (Nat.even (length dc1)); simpl in *.
    + destruct (Nat.even (length dc1)), (Nat.even (length dc2));
        simpl in *; try done.
      by injection (Hhead eq_refl) as ->.
Qed.

Lemma sorted_pair_comm (a b : string) :
  a ≠ b → sorted_pair a b = sorted_pair b a.
Proof.
  intros Hne. unfold sorted_pair.
  destruct (String.leb a b) eqn:Hab, (String.leb b a) eqn:Hba; try done.
  - destruct Hne. by apply String.leb_antisym.
  - destruct (String.leb_total a b); congruence.
Qed.

Lemma onclick_all_ordered (all date_click acc events : list string) :
  Forall (λ p, ∃ m s, p = m +:+ "_" +:+ s ∧ String.le m s ∧ m ≠ s) acc →
  Forall (λ p, ∃ m s, p = m +:+ "_" +:+ s ∧ String.le m s ∧ m ≠ s)
         (onclick_all all date_click acc events).
Proof.
  revert date_click acc. induction events as [|d rest IH];
    intros date_click acc Hacc; [done|].
  simpl. apply IH. destruct date_click as [|prev dc]; [done|].
  cbn [length].
  destruct (Nat.even (length dc)); simpl; [|done].
  destruct (prev =? d)%string eqn:Heq; simpl; [done|].
  apply String.eqb_neq in Heq.
  unfold sorted_pair.
  destruct (String.leb prev d) eqn:Hle; case_bool_decide; try done;
    (apply Forall_app; split; [done|]; constructor; [|done]).
  - exists prev, d. split_and!; [done| |done]. unfold String.le. by rewrite Hle.
  - exists d, prev. split_and!; [done| |done]. unfold String.le.
    destruct (String.leb_total prev d) as [Ht|Ht]; [congruence|by rewrite Ht].
Qed.

(** X16: in the manual selection the two clicks of a pair can come in
    either order, whatever clicks follow, and every identifier selected is
    made of two different dates with the smaller one first. *)
Theorem click_order (obj : Stack) (a b : string) (rest : list string)
    (answer : bool) :
  manual_select_pairs_to_remove obj
    {| clicks := a :: b :: rest; proceed := answer |}
  = manual_select_pairs_to_remove obj
      {| clicks := b :: a :: rest; proceed := answer |}
  ∧ ∀ sel, manual_select_pairs_to_remove obj
             {| clicks := a :: b :: rest; proceed := answer |} = Some sel →
           Forall (λ p, ∃ m s, p = m +:+ "_" +:+ s ∧ String.le m s ∧ m ≠ s) sel.
Proof.
  unfold manual_select_pairs_to_remove. simpl proceed. simpl clicks. split.
  - destruct (negb answer); [done|]. f_equal.
    cbn [onclick_all length Nat.even andb app].
    destruct (decide (a = b)) as [->|Hne]; [done|].
    rewrite (proj2 (String.eqb_neq a b)), (proj2 (String.eqb_neq b a)) by done.
    simpl negb. cbv iota. rewrite (sorted_pair_comm b a) by done.
    destruct (sorted_pair a b) as [m s].
    by apply onclick_all_irrel.
  - intros sel. destruct (negb answer); [done|]. intros [= <-].
    by apply (onclick_all_ordered (date12List obj) [] [] (a :: b :: rest)).
Qed.

End MoreSelection.

(** * The further properties on the scenario *)
Section MoreOnScenario.
Import ptime modify_network Scenario.

(** May 2008 comes back from its six digits; January 2090 does not. *)
Lemma yymmdd_yyyymmdd_century_witness :
  yymmdd (DStr "20080520") = Some (DStr "080520")
  ∧ yyyymmdd (DStr "080520") = Some (DStr "20080520")
  ∧ yymmdd (DStr "20900101") = Some (DStr "900101")
  ∧ yyyymmdd (DStr "900101") ≠ Some (DStr "20900101").
Proof.
  destruct (yymmdd_yyyymmdd_century "20080520" eq_refl)
    as (d6 & H1 & _ & -> & Hiff).
  destruct (yymmdd_yyyymmdd_century "20900101" eq_refl)
    as (d6' & H1' & _ & -> & Hiff').
  split_and!; [done|by apply Hiff|done|].
  intros H. apply Hiff' in H. by vm_compute in H.
Defined.

(** A date that occurs twice is indexed by its last position. *)
Lemma date_index_lookup_witness :
  date_index ["20080101"; "20080201"; "20080101"] !! "20080101" = Some 2%nat
  ∧ date_index ["20080101"; "20080201"; "20080301"] !! "20080201" = Some 1%nat
  ∧ date_index ["20080101"; "20080201"] !! "20080301" = None.
Proof.
  destruct (date_index_lookup ["20080101"; "20080201"; "20080101"])
    as (Hlast & _ & _).
  destruct (date_index_lookup ["20080101"; "20080201"; "20080301"])
    as (_ & _ & Hnodup).
  destruct (date_index_lookup ["20080101"; "20080201"]) as (_ & Hnone & _).
  split_and!.
  - apply Hlast. split; [done|].
    intros [|[|[|j]]] Hj; simpl; try lia; done.
  - apply Hnodup; [|done].
    refine (bool_decide_unpack (NoDup ["20080101"; "20080201"; "20080301"]) _).
    by vm_compute.
  - apply Hnone. rewrite !elem_of_cons, elem_of_nil.
    by intros [?|[?|[]]].
Defined.

(** The three acquisitions of the scenario, the first given by six digits:
    31 days to the first of February, 60 to the first of March. *)
Lemma date_list2tbase_spec_witness :
  ∃ tbase dateDict,
    date_list2tbase ordinal_2008 ["080101"; "20080201"; "20080301"]
    = Ok (tbase, dateDict)
    ∧ tbase = [0; 31; 60]
    ∧ dateDict !! "20080301" = Some 60
    ∧ dateDict !! "080101" = None.
Proof.
  destruct (date_list2tbase_spec ordinal_2008
              ["080101"; "20080201"; "20080301"]) as (_ & Hok & Hres).
  destruct (proj2 Hok) as [[tbase dateDict] H].
  { split; [done|]. unfold yyyymmdd_list. intros d Hd.
    change (yyyymmdd1 <$> ["080101"; "20080201"; "20080301"])
      with ["20080101"; "20080201"; "20080301"] in Hd.
    rewrite !elem_of_cons, elem_of_nil in Hd.
    destruct Hd as [->|[->|[->|[]]]]; by eexists. }
  exists tbase, dateDict.
  destruct (Hres tbase dateDict H) as (_ & _ & _ & Hdict & Hnone).
  assert (Htb : tbase = [0; 31; 60]) by (vm_compute in H; by injection H).
  split_and!; [done..| |].
  - rewrite (Hdict 2%nat "20080301" eq_refl), Htb. done.
  - apply Hnone. unfold yyyymmdd_list.
    change (yyyymmdd1 <$> ["080101"; "20080201"; "20080301"])
      with ["20080101"; "20080201"; "20080301"].
    rewrite !elem_of_cons, elem_of_nil. by intros [?|[?|[?|[]]]].
Defined.

(** A token with an empty part stops the parser. *)
Lemma read_input_index_list_fails_iff_witness :
  is_Ok (read_input_index_list ["2"; "4:6"] (Some stack10))
  ∧ ∃ part, part ∈ Py.split ":" "1::3"
      ∧ read_input_index_list ["1::3"] (Some stack10) = Raise (ValueError part).
Proof.
  destruct (read_input_index_list_fails_iff ["2"; "4:6"] (Some stack10))
    as (Hok & _ & _).
  destruct (read_input_index_list_fails_iff ["1::3"] (Some stack10))
    as (_ & Hraise & _).
  split; [by apply Hok|].
  destruct (Hraise (ValueError "") ltac:(by vm_compute))
    as (idx & part & Hi & Hp & _ & He).
  apply list_elem_of_singleton in Hi as ->. exists part. split; [done|].
  rewrite <-He. by vm_compute.
Defined.

(** The same tokens in another order and with a repetition. *)
Lemma read_input_index_list_token_set_witness :
  ∃ msgs, read_input_index_list ["4:6"; "2"] (Some stack10)
          = Ok ([2; 4; 5; 6], msgs).
Proof.
  apply (read_input_index_list_token_set ["2"; "4:6"; "2"] ["4:6"; "2"]
           (Some stack10) [2; 4; 5; 6] []).
  - intros idx. rewrite !elem_of_cons, !elem_of_nil. tauto.
  - by vm_compute.
Defined.

(** On the three pairs of the scenario: -1 is the last pair, -4 is out of
    range. *)
Lemma excludeIfgIndex_bounds_witness :
  tempList_excludeIfgIndex [-1; 0; 2] stack = Ok [C; A; C]
  ∧ tempList_excludeIfgIndex [-4] stack = Raise IndexError.
Proof.
  destruct (excludeIfgIndex_bounds [-1; 0; 2] stack) as (Hok & _ & _ & _).
  destruct (excludeIfgIndex_bounds [-4] stack) as (_ & Hraise & _ & _).
  split.
  - destruct (proj2 Hok) as [t Ht].
    { repeat constructor; by vm_compute. }
    rewrite Ht. vm_compute in Ht. by injection Ht as <-.
  - destruct (tempList_excludeIfgIndex [-4] stack) as [t|e] eqn:He.
    + by vm_compute in He.
    + by rewrite (Hraise e eq_refl).
Defined.

(** The first of February as a bound: [A] and [C] start before it, [B] and
    [C] end after it.  A bound with dashes is refused. *)
Lemma date_bound_rules_spec_witness :
  tempList_startDate "20080201" stack = Ok [A; C]
  ∧ tempList_endDate "20080201" stack = Ok [B; C]
  ∧ tempList_startDate "2008-02-01" stack = Raise (ValueError "2008-02-01").
Proof.
  destruct (date_bound_rules_spec "20080201" stack) as (_ & Hok).
  destruct (date_bound_rules_spec "2008-02-01" stack) as (Hraise & _).
  destruct (Hok 20080201 eq_refl eq_refl) as (ts & te & Hs & He & _).
  destruct (Hraise (ValueError "2008-02-01") eq_refl) as (Hr & _).
  split_and!; [| |exact Hr].
  - rewrite Hs. vm_compute in Hs. by injection Hs as <-.
  - rewrite He. vm_compute in He. by injection He as <-.
Defined.

(** The two clicks on the dates of [C] select [C], a pair of the stack. *)
Lemma manual_selection_in_stack_witness :
  manual_select_pairs_to_remove stack ui_select_C = Some [C]
  ∧ C ∈ date12List stack.
Proof.
  assert (H : manual_select_pairs_to_remove stack ui_select_C = Some [C])
    by (by vm_compute).
  destruct (manual_selection_in_stack stack ui_select_C [C] H) as (Hin & _).
  split; [done|]. apply Hin. by left.
Defined.

(** The coherence rule on the scenario returns [C], a pair of the stack. *)
Lemma get_date12_to_drop_result_witness :
  get_date12_to_drop reference mst inps_coherence stack ui_confirm
  = Ok (Some [C])
  ∧ C ∈ date12List stack.
Proof.
  assert (H : get_date12_to_drop reference mst inps_coherence stack ui_confirm
              = Ok (Some [C])) by (by vm_compute).
  destruct (get_date12_to_drop_result reference mst inps_coherence stack
              ui_confirm [C] H) as (_ & _ & Hin & _).
  split; [done|]. apply Hin. by left.
Defined.

(** The baseline rule drops [C]; run again, it finds nothing to change. *)
Lemma main_idempotent_witness :
  date12ListDropped (update_drop_ifgram stack [C]) = [C]
  ∧ get_date12_to_drop reference mst inps_tempBase
      (update_drop_ifgram stack [C]) ui_confirm = Ok None.
Proof.
  destruct (main_idempotent reference mst template inps_tempBase stack
              ui_confirm) as (_ & Hagain).
  apply Hagain. by vm_compute.
Defined.


(** With a reference that keeps [A] and [B], only [C] is listed. *)
Lemma reference_rule_spec_witness :
  tempList_reference reference_AB "reference.h5" stack = [C]
  ∧ tempList_reference reference_AB "reference.h5" [pair A 31 (9 # 10)] = [].
Proof.
  destruct (reference_rule_spec reference_AB "reference.h5"
              [pair A 31 (9 # 10)]) as (_ & _ & _ & Hnone).
  split; [by vm_compute|].
  apply Hnone. intros p Hp. apply list_elem_of_singleton in Hp as ->.
  by left.
Defined.

(** A higher threshold on the scenario: 0.95 lists [C] as 0.7 does, the
    spanning tree still keeps [A] and [B]. *)
Lemma coherence_rule_monotone_witness :
  C ∈ tempList_coherence mst inps_coherence stack
  ∧ C ∈ tempList_coherence mst inps_coherence_high stack.
Proof.
  destruct (coherence_rule_monotone mst inps_coherence inps_coherence_high stack)
    as (Hup & _ & _).
  assert (H : C ∈ tempList_coherence mst inps_coherence stack).
  { replace (tempList_coherence mst inps_coherence stack) with [C]
      by (by vm_compute). by left. }
  split; [done|]. apply Hup; [done| |done]. by vm_compute.
Defined.

(** Clicking the first of March and then the first of January, or the
    other way round, selects [C]. *)
Lemma click_order_witness :
  manual_select_pairs_to_remove stack
    {| clicks := ["20080301"; "20080101"]; proceed := true |}
  = manual_select_pairs_to_remove stack
      {| clicks := ["20080101"; "20080301"]; proceed := true |}
  ∧ Forall (λ p, ∃ m s, p = m +:+ "_" +:+ s ∧ String.le m s ∧ m ≠ s) [C].
Proof.
  destruct (click_order stack "20080301" "20080101" [] true) as [Heq Hord].
  split; [exact Heq|]. apply Hord. by vm_compute.
Defined.

End MoreOnScenario.
